(** * The Reader base class of [readers/readers.py]

    A shallow embedding of [Reader.check_arguments],
    [Reader.index_of_closest_time] and [Reader.indices_min_max_depth],
    and the properties of these three methods.

    Conventions of the embedding.
    - A [datetime] is the number of microseconds since a fixed epoch and a
      [timedelta] a number of microseconds, both in [Z]: Python compares and
      subtracts them exactly at that resolution.
    - Coordinates and depths are Python floats.  Only their order is ever
      inspected, so they are rationals [Q] here (every finite double is one);
      NaN and the infinities are left out.
    - [index_of_closest_time] rounds the exact quotient of the two
      durations.  The source divides two doubles, the [total_seconds()] of
      the two durations; [index_of_closest_time_float] follows it bit for
      bit.  The two agree for a request on a grid point, and wherever
      [timeStep] and the offset from [startTime] are [whole_seconds]: both
      [total_seconds()] are then exact, the double quotient is the
      correctly rounded exact quotient, and no quotient other than a tie
      is near enough to a half-integer to be rounded across it.  The double
      quotient is monotone in the requested time.  Away from whole seconds
      the two can differ by one next to a tie, and the statements on which
      of two neighbouring indices is chosen are made for whole seconds.
    - The catalog [variables] is a list of identifiers, [times] a sequence
      of datetimes and [depths] a 1-d array; the attributes that the
      methods read without a test are set.
    - A raised exception is a value of [exn]; a method returns [result]. *)

From Stdlib Require Import ZArith QArith List String Ascii Bool Lia.
From Stdlib Require Import DecimalString Sorted.
From Stdlib Require Floats.
Import ListNotations.

Local Open Scope list_scope.
Local Open Scope string_scope.

(** ** Exceptions and results *)

Inductive exn : Type :=
| ValueError (msg : string)
| TypeError
| IndexError
| ZeroDivisionError
| AttributeError.

Inductive result (A : Type) : Type :=
| Ok (a : A)
| Raise (e : exn).

Arguments Ok {A} a.
Arguments Raise {A} e.

Definition bind {A B : Type} (c : result A) (k : A -> result B) : result B :=
  match c with
  | Ok a => k a
  | Raise e => Raise e
  end.

Notation "x <- c ;; k" := (bind c (fun x => k))
  (at level 61, c at next level, right associativity).
Notation "c ;;; k" := (bind c (fun _ => k))
  (at level 61, right associativity).

Definition succeeds {A : Type} (c : result A) : Prop := exists a, c = Ok a.

(** ** numpy arrays, as far as the three methods use them *)

(** [np.asarray] of a Python scalar is a 0-dimensional array, of a sequence
    (or of a 1-d array) a 1-dimensional one. *)
Inductive ndarray (A : Type) : Type :=
| Nd0 (a : A)
| Nd1 (l : list A).

Arguments Nd0 {A} a.
Arguments Nd1 {A} l.

Inductive arraylike : Type :=
| Scalar (q : Q)
| Seq (l : list Q).

Definition asarray (a : arraylike) : ndarray Q :=
  match a with
  | Scalar q => Nd0 q
  | Seq l => Nd1 l
  end.

(** An elementwise operation against a Python scalar, [a < c]. *)
Definition nd_map {A B : Type} (f : A -> B) (a : ndarray A) : ndarray B :=
  match a with
  | Nd0 v => Nd0 (f v)
  | Nd1 l => Nd1 (map f l)
  end.

Fixpoint zip_with {A B C : Type} (f : A -> B -> C) (l1 : list A) (l2 : list B)
  : list C :=
  match l1, l2 with
  | a :: l1', b :: l2' => f a b :: zip_with f l1' l2'
  | _, _ => []
  end.

Definition broadcast_error : exn :=
  ValueError "operands could not be broadcast together".

(** A binary elementwise operation with numpy's broadcasting: a 0-d operand
    and an operand of length one are stretched, other unequal lengths raise. *)
Definition nd_map2 {A B C : Type} (f : A -> B -> C)
    (a : ndarray A) (b : ndarray B) : result (ndarray C) :=
  match a, b with
  | Nd0 u, Nd0 v => Ok (Nd0 (f u v))
  | Nd0 u, Nd1 l => Ok (Nd1 (map (f u) l))
  | Nd1 l, Nd0 v => Ok (Nd1 (map (fun u => f u v) l))
  | Nd1 l1, Nd1 l2 =>
      if Nat.eqb (List.length l1) (List.length l2) then Ok (Nd1 (zip_with f l1 l2))
      else match l1, l2 with
           | [u], _ => Ok (Nd1 (map (f u) l2))
           | _, [v] => Ok (Nd1 (map (fun u => f u v) l1))
           | _, _ => Raise broadcast_error
           end
  end.

Definition nd_or : ndarray bool -> ndarray bool -> result (ndarray bool) :=
  nd_map2 orb.

(** The positions of the [true] entries of [l], counted from [i]. *)
Fixpoint where_from (i : nat) (l : list bool) : list nat :=
  match l with
  | [] => []
  | b :: l' => if b then i :: where_from (S i) l' else where_from (S i) l'
  end.

(** [np.where(mask)[0]].  A 0-d mask is read as a mask of length one. *)
Definition np_where (mask : ndarray bool) : list nat :=
  match mask with
  | Nd0 b => where_from 0 [b]
  | Nd1 l => where_from 0 l
  end.

(** [len(a)]: a 0-d array is unsized. *)
Definition py_len {A : Type} (a : ndarray A) : result nat :=
  match a with
  | Nd0 _ => Raise TypeError
  | Nd1 l => Ok (List.length l)
  end.

(** [a < b] on floats. *)
Definition Qltb (a b : Q) : bool := negb (Qle_bool b a).

(** ** Strings *)

Definition newline : string := String (ascii_of_nat 10) EmptyString.

(** [repr] of an identifier (no quote, backslash or control character in it). *)
Definition py_repr (s : string) : string := "'" ++ s ++ "'".

(** [str] of a list of identifiers. *)
Definition py_str_list (l : list string) : string :=
  "[" ++ String.concat ", " (map py_repr l) ++ "]".

(** [v in l] on a list of strings. *)
Definition py_in (v : string) (l : list string) : bool :=
  existsb (String.eqb v) l.

Definition substring_of (s t : string) : Prop :=
  exists pre post, t = pre ++ s ++ post.

(** ** The reader *)

Record Reader : Type := mkReader {
  name : string;
  variables : list string;
  startTime : option Z;
  endTime : option Z;
  timeStep : option Z;
  times : list Z;
  xmin : Q;
  xmax : Q;
  ymin : Q;
  ymax : Q;
  depths : list Q
}.

(** The [variables] argument: a string or a list of strings. *)
Inductive variables_arg : Type :=
| VStr (s : string)
| VList (l : list string).

Section Readers.

(** [str] of a [datetime], used by the [%s] of the two time messages. *)
Variable datetime_str : Z -> string.

Definition str_time (t : option Z) : string :=
  match t with
  | None => "None"
  | Some z => datetime_str z
  end.

(** *** check_arguments *)

Definition msg_variable (variable : string) (available : list string) : string :=
  "Variable not available: " ++ variable ++ newline ++
  "Available parameters are: " ++ py_str_list available.

Definition msg_before (time startTime : option Z) : string :=
  "Requested time (" ++ str_time time ++
  ") is before first available time (" ++ str_time startTime ++ ")".

Definition msg_after (time endTime : option Z) : string :=
  "Requested time (" ++ str_time time ++
  ") is after last available time (" ++ str_time endTime ++ ")".

Definition msg_outside (reader : string) : string :=
  "All particles are outside domain of reader " ++ reader.

(** [if time is None: time = self.startTime] *)
Definition default_time (self : Reader) (time : option Z) : option Z :=
  match time with
  | None => startTime self
  | Some _ => time
  end.

(** [if isinstance(variables, str): variables = [variables]] *)
Definition to_list (vs : variables_arg) : list string :=
  match vs with
  | VStr s => [s]
  | VList l => l
  end.

(** The loop over the requested variables. *)
Fixpoint check_variables (self : Reader) (vs : list string) : result unit :=
  match vs with
  | [] => Ok tt
  | variable :: vs' =>
      if negb (py_in variable (variables self))
      then Raise (ValueError (msg_variable variable (variables self)))
      else check_variables self vs'
  end.

(** [time < bound] and [time > bound] on a [datetime]; [None] does not
    compare with a [datetime]. *)
Definition time_lt (time : option Z) (bound : Z) : result bool :=
  match time with
  | None => Raise TypeError
  | Some t => Ok (Z.ltb t bound)
  end.

Definition time_gt (time : option Z) (bound : Z) : result bool :=
  match time with
  | None => Raise TypeError
  | Some t => Ok (Z.ltb bound t)
  end.

Definition check_start (self : Reader) (time : option Z) : result unit :=
  match startTime self with
  | None => Ok tt
  | Some s =>
      before <- time_lt time s ;;
      if before then Raise (ValueError (msg_before time (startTime self)))
      else Ok tt
  end.

Definition check_end (self : Reader) (time : option Z) : result unit :=
  match endTime self with
  | None => Ok tt
  | Some e =>
      after <- time_gt time e ;;
      if after then Raise (ValueError (msg_after time (endTime self)))
      else Ok tt
  end.

(** The mask under [np.where], with the bounds as the source names them:
    [(x < self.xmin) | (x > self.xmax) | (y < self.xmin) | (y > self.ymax)]. *)
Definition outside_mask (self : Reader) (x y : ndarray Q)
  : result (ndarray bool) :=
  m12 <- nd_or (nd_map (fun v => Qltb v (xmin self)) x)
               (nd_map (fun v => Qltb (xmax self) v) x) ;;
  m123 <- nd_or m12 (nd_map (fun v => Qltb v (xmin self)) y) ;;
  nd_or m123 (nd_map (fun v => Qltb (ymax self) v) y).

Definition checked : Type :=
  (list string * option Z * ndarray Q * ndarray Q * ndarray Q * list nat)%type.

Definition check_arguments (self : Reader) (variables : variables_arg)
    (time : option Z) (x y depth : arraylike) : result checked :=
  let time := default_time self time in
  let variables := to_list variables in
  let x := asarray x in
  let y := asarray y in
  let depth := asarray depth in
  check_variables self variables ;;;
  check_start self time ;;;
  check_end self time ;;;
  mask <- outside_mask self x y ;;
  let outside := np_where mask in
  n <- py_len x ;;
  if Nat.eqb (List.length outside) n
  then Raise (ValueError (msg_outside (name self)))
  else Ok (variables, time, x, y, depth, outside).

End Readers.

(** *** index_of_closest_time *)

(** Python's [round] on a tie: half away from zero in Python 2, half to even
    in Python 3.  The properties below hold under either. *)
Inductive rounding : Type :=
| HalfAwayFromZero
| HalfToEven.

(** The integer nearest to [num / den], for [0 < den]. *)
Definition round_pos (m : rounding) (num den : Z) : Z :=
  let f := (num / den)%Z in
  match (2 * (num mod den) ?= den)%Z with
  | Lt => f
  | Gt => (f + 1)%Z
  | Eq =>
      match m with
      | HalfAwayFromZero => if (0 <=? num)%Z then (f + 1)%Z else f
      | HalfToEven => if Z.even f then f else (f + 1)%Z
      end
  end.

(** [int(round(num / den))] for [den <> 0]. *)
Definition py_round (m : rounding) (num den : Z) : Z :=
  if (den <? 0)%Z then round_pos m (- num) (- den) else round_pos m num den.

(** [l[i]]: a negative index counts from the end, an index out of
    [-len(l) .. len(l)-1] raises [IndexError]. *)
Definition py_getitem {A : Type} (l : list A) (i : Z) : result A :=
  let n := Z.of_nat (List.length l) in
  let j := if (i <? 0)%Z then (i + n)%Z else i in
  if (j <? 0)%Z then Raise IndexError
  else match nth_error l (Z.to_nat j) with
       | Some a => Ok a
       | None => Raise IndexError
       end.

Definition index_of_closest_time (m : rounding) (self : Reader)
    (requestedTime : Z) : result (Z * Z) :=
  match startTime self with
  | None => Raise TypeError
  | Some start =>
      match timeStep self with
      | None => Raise AttributeError
      | Some step =>
          if (step =? 0)%Z then Raise ZeroDivisionError
          else
            let indx := py_round m (requestedTime - start) step in
            nearestTime <- py_getitem (times self) indx ;;
            Ok (indx, nearestTime)
      end
  end.

(** *** index_of_closest_time, in doubles *)

(** [a * 2^s / b] as a fraction of integers. *)
Definition scaled (a b s : Z) : Z * Z :=
  if (0 <=? s)%Z then ((a * 2 ^ s)%Z, b) else (a, (b * 2 ^ (- s))%Z).

(** [a / b] on two Python ints, [0 < b]: the double nearest to the quotient,
    ties to even.  The quotient is scaled to a mantissa of 53 bits, which is
    rounded and scaled back; the quotients met here are in the normal
    range. *)
Definition int_true_div (a b : Z) : PrimFloat.float :=
  if (a =? 0)%Z then PrimFloat.zero
  else
    let n := Z.abs a in
    let s0 := (52 - (Z.log2 n - Z.log2 b))%Z in
    let s := if (fst (scaled n b s0) <? 2 ^ 52 * snd (scaled n b s0))%Z
             then (s0 + 1)%Z else s0 in
    let mant := round_pos HalfToEven (fst (scaled n b s)) (snd (scaled n b s)) in
    let f := FloatOps.Z.ldexp (PrimFloat.of_uint63 (Uint63.of_Z mant)) (- s) in
    if (a <? 0)%Z then PrimFloat.opp f else f.

(** [timedelta.total_seconds()]: the microseconds divided by [10**6]. *)
Definition total_seconds (d : Z) : PrimFloat.float := int_true_div d 1000000.

(** [int(round(f))] on a double.  NaN and the infinities, which [int]
    refuses, do not arise from two finite operands and a divisor other than
    zero. *)
Definition int_round (m : rounding) (f : PrimFloat.float) : result Z :=
  match FloatOps.Prim2SF f with
  | SpecFloat.S754_zero _ => Ok 0%Z
  | SpecFloat.S754_finite s mant e =>
      let n := if s then Zneg mant else Zpos mant in
      Ok (if (0 <=? e)%Z then (n * 2 ^ e)%Z else round_pos m n (2 ^ (- e)))
  | SpecFloat.S754_infinity _ =>
      Raise (ValueError "cannot convert float infinity to integer")
  | SpecFloat.S754_nan =>
      Raise (ValueError "cannot convert float NaN to integer")
  end.


(** *** indices_min_max_depth *)

Definition empty_reduction : exn :=
  ValueError "zero-size array to reduction operation".

Definition Qmin' (a b : Q) : Q := if Qle_bool a b then a else b.
Definition Qmax' (a b : Q) : Q := if Qle_bool a b then b else a.

(** [a.min()] and [a.max()]. *)
Definition nd_min (a : ndarray Q) : result Q :=
  match a with
  | Nd0 q => Ok q
  | Nd1 [] => Raise empty_reduction
  | Nd1 (q :: l) => Ok (fold_left Qmin' l q)
  end.

Definition nd_max (a : ndarray Q) : result Q :=
  match a with
  | Nd0 q => Ok q
  | Nd1 [] => Raise empty_reduction
  | Nd1 (q :: l) => Ok (fold_left Qmax' l q)
  end.

(** The position of the first entry of [l] equal to [v]. *)
Fixpoint first_index (v : bool) (l : list bool) : option nat :=
  match l with
  | [] => None
  | b :: l' =>
      if Bool.eqb b v then Some O
      else option_map S (first_index v l')
  end.

(** [mask.argmin()] and [mask.argmax()] on a boolean array: the position of
    the first occurrence of the least (greatest) entry, [False < True]. *)
Definition argmin (mask : list bool) : result Z :=
  match mask with
  | [] => Raise empty_reduction
  | _ =>
      match first_index (forallb (fun b => b) mask) mask with
      | Some i => Ok (Z.of_nat i)
      | None => Ok 0%Z
      end
  end.

Definition argmax (mask : list bool) : result Z :=
  match mask with
  | [] => Raise empty_reduction
  | _ =>
      match first_index (existsb (fun b => b) mask) mask with
      | Some i => Ok (Z.of_nat i)
      | None => Ok 0%Z
      end
  end.

Definition indices_min_max_depth (self : Reader) (requested : ndarray Q)
  : result (Z * Z) :=
  lo <- nd_min requested ;;
  a <- argmin (map (fun d => Qle_bool d lo) (depths self)) ;;
  let minIndex := (a - 1)%Z in
  hi <- nd_max requested ;;
  maxIndex <- argmax (map (fun d => Qle_bool hi d) (depths self)) ;;
  Ok (minIndex, maxIndex).

(** ** Vocabulary of the properties *)

(** The three [ValueError]s of [check_arguments], told apart by the fixed
    head of their message. *)
Definition is_unsupported_variable (e : exn) : bool :=
  match e with
  | ValueError msg => prefix "Variable not available: " msg
  | _ => false
  end.

Definition is_time_out_of_range (e : exn) : bool :=
  match e with
  | ValueError msg => prefix "Requested time (" msg
  | _ => false
  end.

Definition is_all_points_outside (e : exn) : bool :=
  match e with
  | ValueError msg => prefix "All particles are outside domain of reader " msg
  | _ => false
  end.

(** A point lies outside the bounding box of the reader. *)
Definition outside_box (self : Reader) (px py : Q) : Prop :=
  (px < xmin self \/ xmax self < px \/ py < ymin self \/ ymax self < py)%Q.

(** What the mask of the source tests: [y] is compared with [xmin]. *)
Definition outside_tested (self : Reader) (px py : Q) : Prop :=
  (px < xmin self \/ xmax self < px \/ py < xmin self \/ ymax self < py)%Q.



(** [i] is a usable Python index of [l]. *)
Definition valid_index {A : Type} (l : list A) (i : Z) : Prop :=
  (- Z.of_nat (List.length l) <= i < Z.of_nat (List.length l))%Z.

(** Strictly increasing depth levels. *)
Fixpoint increasing (l : list Q) : Prop :=
  match l with
  | [] => True
  | a :: l' =>
      match l' with
      | [] => True
      | b :: _ => (a < b)%Q /\ increasing l'
      end
  end.

(** The requested time lies before a defined [startTime] or after a defined
    [endTime]. *)
Definition time_out_of_range (self : Reader) (time : option Z) : Prop :=
  exists t, time = Some t /\
    ((exists s, startTime self = Some s /\ (t < s)%Z) \/
     (exists e, endTime self = Some e /\ (e < t)%Z)).

(** The requested time is a [datetime] inside the coverage of the reader. *)
Definition time_covered (self : Reader) (time : option Z) : Prop :=
  exists t, time = Some t /\
    (forall s, startTime self = Some s -> (s <= t)%Z) /\
    (forall e, endTime self = Some e -> (t <= e)%Z).

Definition supported (self : Reader) (vs : list string) : Prop :=
  Forall (fun v => In v (variables self)) vs.

(** The entry of the mask for one point, as the source computes it. *)
Definition tested (self : Reader) (px py : Q) : bool :=
  Qltb px (xmin self) || Qltb (xmax self) px ||
  Qltb py (xmin self) || Qltb (ymax self) py.

(** The point of index [i] of a pair of arrays. *)
Definition point_at (xs ys : list Q) (i : nat) (px py : Q) : Prop :=
  nth_error xs i = Some px /\ nth_error ys i = Some py.

(** ** Sample data *)

(** A rendering of a [datetime] as its count of microseconds. *)
Definition micros_str (z : Z) : string := NilZero.string_of_int (Z.to_int z).

Definition hour : Z := 3600000000.

Definition wind_reader : Reader :=
  mkReader "wind" ["x_wind"; "y_wind"]
           (Some 0%Z) (Some (2 * hour)%Z) (Some hour)
           [0%Z; hour; (2 * hour)%Z]
           0 10 5 10
           [0; 10; 20; 30; 50]%Q.

Definition shallow_reader : Reader :=
  mkReader "shallow" ["sea_water_temperature"]
           None None None []
           0 10 0 10
           [0; 10; 20]%Q.

(** A reader whose samples run backwards in time. *)
Definition backward_reader : Reader :=
  mkReader "backward" ["x_wind"]
           (Some (2 * hour)%Z) None (Some (- hour)%Z)
           [(2 * hour)%Z; hour; 0%Z]
           0 10 0 10
           [].

Definition day : Z := 24 * hour.



(** One microsecond before the middle of the samples 6697 and 6698. *)
Definition before_middle : Z := (6697 * (30 * day) + 15 * day - 1)%Z.

(** An array of an earlier result handed in again as an argument:
    [np.asarray] returns it as it is. *)
Definition of_ndarray (a : ndarray Q) : arraylike :=
  match a with
  | Nd0 q => Scalar q
  | Nd1 l => Seq l
  end.

(** ** Properties of check_arguments *)

Lemma append_assoc (a b c : string) : (a ++ b) ++ c = a ++ b ++ c.
Proof.
  induction a as [|ch a IH]; simpl; [reflexivity | now rewrite IH].
Qed.

Lemma prefix_empty (s : string) : prefix "" s = true.
Proof. destruct s; reflexivity. Qed.

Lemma substring_of_refl (s : string) : substring_of s s.
Proof.
  exists "", "". simpl.
  induction s as [|ch s IH]; simpl; [reflexivity | now rewrite <- IH].
Qed.

Lemma substring_of_app_l (s t a : string) :
  substring_of s t -> substring_of s (a ++ t).
Proof.
  intros (pre & post & ->).
  exists (a ++ pre), post.
  now rewrite !append_assoc.
Qed.

Lemma substring_of_append (s t a b : string) :
  substring_of s t -> substring_of s (a ++ t ++ b).
Proof.
  intros (pre & post & ->).
  exists (a ++ pre), (post ++ b).
  now rewrite !append_assoc.
Qed.

Lemma concat_cons2 (sep x y : string) (l : list string) :
  String.concat sep (x :: y :: l) = x ++ sep ++ String.concat sep (y :: l).
Proof. reflexivity. Qed.

Lemma substring_of_concat (c : string) (l : list string) :
  In c l -> substring_of c (String.concat ", " (map py_repr l)).
Proof.
  assert (Hd : substring_of c (py_repr c)).
  { exists "'", "'". reflexivity. }
  induction l as [|d l IH]; intros Hin; [contradiction|].
  destruct l as [|d' l].
  - destruct Hin as [-> | []]. exact Hd.
  - rewrite map_cons, map_cons, concat_cons2, <- map_cons.
    destruct Hin as [-> | Hin].
    + destruct Hd as (pre & post & ->).
      exists pre, (post ++ ", " ++ String.concat ", " (map py_repr (d' :: l))).
      now rewrite !append_assoc.
    + destruct (IH Hin) as (pre & post & ->).
      exists (py_repr d ++ ", " ++ pre), post.
      now rewrite !append_assoc.
Qed.

Lemma substring_of_catalog (c : string) (l : list string) :
  In c l -> substring_of c (py_str_list l).
Proof.
  intros Hin. unfold py_str_list.
  apply substring_of_append. now apply substring_of_concat.
Qed.

Lemma py_in_iff (v : string) (l : list string) : py_in v l = true <-> In v l.
Proof.
  unfold py_in. rewrite existsb_exists. split.
  - intros (u & Hu & Heq). apply String.eqb_eq in Heq. now subst.
  - intros Hin. exists v. split; [assumption | apply String.eqb_refl].
Qed.

Lemma check_variables_supported (self : Reader) (vs : list string) :
  supported self vs -> check_variables self vs = Ok tt.
Proof.
  induction 1 as [|v vs Hv _ IH]; simpl; [reflexivity|].
  apply py_in_iff in Hv. now rewrite Hv.
Qed.

Lemma check_variables_first_missing (self : Reader) (pre post : list string)
    (v : string) :
  supported self pre -> ~ In v (variables self) ->
  check_variables self (pre ++ v :: post)%list =
  Raise (ValueError (msg_variable v (variables self))).
Proof.
  intros Hpre Hv. induction Hpre as [|u pre Hu _ IH]; simpl.
  - destruct (py_in v (variables self)) eqn:E; [|reflexivity].
    apply py_in_iff in E. contradiction.
  - apply py_in_iff in Hu. now rewrite Hu.
Qed.

Lemma check_variables_raise_inv (self : Reader) (vs : list string) (e : exn) :
  check_variables self vs = Raise e ->
  exists v, In v vs /\ ~ In v (variables self) /\
            e = ValueError (msg_variable v (variables self)).
Proof.
  induction vs as [|u vs IH]; simpl; [discriminate|].
  destruct (py_in u (variables self)) eqn:E; simpl.
  - intros H. destruct (IH H) as (v & Hin & Hv & He).
    exists v. auto.
  - intros [= <-]. exists u. repeat split; auto.
    intros Hin. apply py_in_iff in Hin. congruence.
Qed.

Lemma check_variables_ok_inv (self : Reader) (vs : list string) :
  check_variables self vs = Ok tt -> supported self vs.
Proof.
  induction vs as [|u vs IH]; simpl; [constructor|].
  destruct (py_in u (variables self)) eqn:E; simpl; [|discriminate].
  intros H. constructor; [now apply py_in_iff | exact (IH H)].
Qed.

Lemma nd_map2_raise_inv {A B C : Type} (f : A -> B -> C)
    (a : ndarray A) (b : ndarray B) (e : exn) :
  nd_map2 f a b = Raise e -> e = broadcast_error.
Proof.
  destruct a as [u|l1], b as [v|l2]; simpl; try discriminate.
  destruct (Nat.eqb _ _); [discriminate|].
  destruct l1 as [|u [|u' l1]], l2 as [|v [|v' l2]];
    try discriminate; now intros [= <-].
Qed.

Lemma outside_mask_raise_inv (self : Reader) (x y : ndarray Q) (e : exn) :
  outside_mask self x y = Raise e -> e = broadcast_error.
Proof.
  unfold outside_mask, nd_or.
  destruct (nd_map2 orb (nd_map _ x) (nd_map _ x)) as [m12|e1] eqn:E1; simpl.
  - destruct (nd_map2 orb m12 _) as [m123|e2] eqn:E2; simpl.
    + apply nd_map2_raise_inv.
    + intros [= <-]. now apply nd_map2_raise_inv in E2.
  - intros [= <-]. now apply nd_map2_raise_inv in E1.
Qed.

Lemma py_len_raise_inv {A : Type} (a : ndarray A) (e : exn) :
  py_len a = Raise e -> e = TypeError.
Proof. destruct a; simpl; [now intros [= <-] | discriminate]. Qed.

(** Runs a call of [check_arguments] through its three checks, leaving the
    case where all of them pass. *)
Ltac pass_checks :=
  unfold check_arguments;
  destruct (check_variables _ _) as [[]|]; simpl; [|discriminate];
  destruct (check_start _ _ _) as [[]|]; simpl; [|discriminate];
  destruct (check_end _ _ _) as [[]|]; simpl; [|discriminate].

Section CheckArguments.

Variable datetime_str : Z -> string.

Lemma check_start_raise_inv (self : Reader) (time : option Z) (e : exn) :
  check_start datetime_str self time = Raise e ->
  e = TypeError \/
  exists t s, time = Some t /\ startTime self = Some s /\ (t < s)%Z /\
              e = ValueError (msg_before datetime_str time (startTime self)).
Proof.
  unfold check_start. destruct (startTime self) as [s|]; [|discriminate].
  destruct time as [t|]; simpl; [|intros [= <-]; now left].
  destruct (Z.ltb_spec t s); [|discriminate].
  intros [= <-]. right. exists t, s. auto.
Qed.

Lemma check_end_raise_inv (self : Reader) (time : option Z) (e : exn) :
  check_end datetime_str self time = Raise e ->
  e = TypeError \/
  exists t en, time = Some t /\ endTime self = Some en /\ (en < t)%Z /\
               e = ValueError (msg_after datetime_str time (endTime self)).
Proof.
  unfold check_end. destruct (endTime self) as [en|]; [|discriminate].
  destruct time as [t|]; simpl; [|intros [= <-]; now left].
  destruct (Z.ltb_spec en t); [|discriminate].
  intros [= <-]. right. exists t, en. auto.
Qed.

Lemma check_start_covered (self : Reader) (time : option Z) :
  time_covered self time -> check_start datetime_str self time = Ok tt.
Proof.
  intros (t & -> & Hs & _). unfold check_start.
  destruct (startTime self) as [s|]; [|reflexivity]. simpl.
  specialize (Hs s eq_refl).
  destruct (Z.ltb_spec t s); [lia | reflexivity].
Qed.

Lemma check_end_covered (self : Reader) (time : option Z) :
  time_covered self time -> check_end datetime_str self time = Ok tt.
Proof.
  intros (t & -> & _ & He). unfold check_end.
  destruct (endTime self) as [en|]; [|reflexivity]. simpl.
  specialize (He en eq_refl).
  destruct (Z.ltb_spec en t); [lia | reflexivity].
Qed.

(** Every exception of [check_arguments] comes from one of its raise sites
    or from numpy. *)
Lemma check_arguments_raise_inv (self : Reader) (vars : variables_arg)
    (time : option Z) (x y depth : arraylike) (e : exn) :
  check_arguments datetime_str self vars time x y depth = Raise e ->
  (exists v, In v (to_list vars) /\ ~ In v (variables self) /\
             e = ValueError (msg_variable v (variables self))) \/
  e = TypeError \/
  (exists t s, default_time self time = Some t /\ startTime self = Some s /\
               (t < s)%Z /\
               e = ValueError (msg_before datetime_str (Some t) (Some s))) \/
  (exists t en, default_time self time = Some t /\ endTime self = Some en /\
                (en < t)%Z /\
                e = ValueError (msg_after datetime_str (Some t) (Some en))) \/
  e = broadcast_error \/
  e = ValueError (msg_outside (name self)).
Proof.
  unfold check_arguments.
  destruct (check_variables self (to_list vars)) as [[]|e0] eqn:Hv; simpl.
  2:{ intros [= <-]. left. now apply check_variables_raise_inv. }
  destruct (check_start datetime_str self (default_time self time))
    as [[]|e0] eqn:Hs; simpl.
  2:{ intros [= <-]. apply check_start_raise_inv in Hs.
      destruct Hs as [-> | (t & s & Ht & Hst & Hlt & ->)]; [now auto|].
      right; right; left. exists t, s. rewrite Ht, Hst. auto. }
  destruct (check_end datetime_str self (default_time self time))
    as [[]|e0] eqn:He; simpl.
  2:{ intros [= <-]. apply check_end_raise_inv in He.
      destruct He as [-> | (t & en & Ht & Hen & Hlt & ->)]; [now auto|].
      right; right; right; left. exists t, en. rewrite Ht, Hen. auto. }
  destruct (outside_mask self (asarray x) (asarray y)) as [mask|e0] eqn:Hm;
    simpl.
  2:{ intros [= <-]. apply outside_mask_raise_inv in Hm. auto 6. }
  destruct (py_len (asarray x)) as [n|e0] eqn:Hn; simpl.
  2:{ intros [= <-]. apply py_len_raise_inv in Hn. auto. }
  destruct (Nat.eqb _ n); [|discriminate].
  intros [= <-]. auto 6.
Qed.

(** The kind of each message is read off its head. *)
Lemma msg_variable_kind (v : string) (l : list string) :
  is_unsupported_variable (ValueError (msg_variable v l)) = true /\
  is_time_out_of_range (ValueError (msg_variable v l)) = false /\
  is_all_points_outside (ValueError (msg_variable v l)) = false.
Proof. cbn. now rewrite prefix_empty. Qed.

Lemma msg_before_kind (t s : option Z) :
  is_unsupported_variable (ValueError (msg_before datetime_str t s)) = false /\
  is_time_out_of_range (ValueError (msg_before datetime_str t s)) = true /\
  is_all_points_outside (ValueError (msg_before datetime_str t s)) = false.
Proof. cbn. now rewrite prefix_empty. Qed.

Lemma msg_after_kind (t s : option Z) :
  is_unsupported_variable (ValueError (msg_after datetime_str t s)) = false /\
  is_time_out_of_range (ValueError (msg_after datetime_str t s)) = true /\
  is_all_points_outside (ValueError (msg_after datetime_str t s)) = false.
Proof. cbn. now rewrite prefix_empty. Qed.

Lemma msg_outside_kind (n : string) :
  is_unsupported_variable (ValueError (msg_outside n)) = false /\
  is_time_out_of_range (ValueError (msg_outside n)) = false /\
  is_all_points_outside (ValueError (msg_outside n)) = true.
Proof. cbn. now rewrite prefix_empty. Qed.

Lemma outside_mask_scalar_x (self : Reader) (q : Q) (y : ndarray Q) :
  exists mask, outside_mask self (Nd0 q) y = Ok mask.
Proof.
  unfold outside_mask, nd_or. destruct y as [v|l]; simpl.
  - eauto.
  - rewrite !length_map, Nat.eqb_refl. eauto.
Qed.

(** C3.  A request with a variable outside the catalog fails at the first
    such variable, with a [ValueError] whose message names that variable and
    holds the whole catalog ([str(self.variables)], hence each of its
    entries); when every requested variable is in the catalog, no exception
    of [check_arguments] is the variable error. *)
Theorem check_arguments_unsupported_variable (self : Reader)
    (vars : variables_arg) (time : option Z) (x y depth : arraylike) :
  (forall pre v post,
      to_list vars = (pre ++ v :: post)%list ->
      supported self pre ->
      ~ In v (variables self) ->
      let msg := msg_variable v (variables self) in
      check_arguments datetime_str self vars time x y depth =
        Raise (ValueError msg) /\
      is_unsupported_variable (ValueError msg) = true /\
      substring_of v msg /\
      substring_of (py_str_list (variables self)) msg /\
      (forall c, In c (variables self) -> substring_of c msg)) /\
  (supported self (to_list vars) ->
   forall e, check_arguments datetime_str self vars time x y depth = Raise e ->
             is_unsupported_variable e = false).
Proof.
  split.
  - intros pre v post Hvars Hpre Hv msg.
    assert (Hcat : substring_of (py_str_list (variables self)) msg).
    { unfold msg, msg_variable.
      do 4 apply substring_of_app_l. apply substring_of_refl. }
    repeat split.
    + unfold check_arguments. rewrite Hvars.
      now rewrite (check_variables_first_missing self pre post v Hpre Hv).
    + apply msg_variable_kind.
    + unfold msg, msg_variable.
      exists "Variable not available: ",
             (newline ++ "Available parameters are: " ++
              py_str_list (variables self)).
      reflexivity.
    + exact Hcat.
    + intros c Hc. unfold msg, msg_variable.
      do 4 apply substring_of_app_l. now apply substring_of_catalog.
  - intros Hsup e He.
    apply check_arguments_raise_inv in He.
    destruct He as [(v & Hin & Hv & _) | [-> | [(t & s & _ & _ & _ & ->)
      | [(t & en & _ & _ & _ & ->) | [-> | ->]]]]].
    + exfalso. apply Hv.
      unfold supported in Hsup. rewrite Forall_forall in Hsup. now apply Hsup.
    + reflexivity.
    + apply msg_before_kind.
    + apply msg_after_kind.
    + reflexivity.
    + apply msg_outside_kind.
Qed.

(** C4, as amended.  A time error of [check_arguments] is raised only when
    the requested time, after defaulting, lies before a defined [startTime]
    or after a defined [endTime]; it is raised in each such case provided
    every requested variable is in the catalog (the variable check comes
    first); a time inside the coverage never gives a time error. *)
Theorem check_arguments_time_out_of_range (self : Reader)
    (vars : variables_arg) (time : option Z) (x y depth : arraylike) :
  ((exists e, check_arguments datetime_str self vars time x y depth = Raise e
              /\ is_time_out_of_range e = true) ->
   time_out_of_range self (default_time self time)) /\
  (supported self (to_list vars) ->
   time_out_of_range self (default_time self time) ->
   exists e, check_arguments datetime_str self vars time x y depth = Raise e
             /\ is_time_out_of_range e = true) /\
  (time_covered self (default_time self time) ->
   forall e, check_arguments datetime_str self vars time x y depth = Raise e ->
             is_time_out_of_range e = false).
Proof.
  assert (Honly : forall e,
    check_arguments datetime_str self vars time x y depth = Raise e ->
    is_time_out_of_range e = true ->
    time_out_of_range self (default_time self time)).
  { intros e He Hk. apply check_arguments_raise_inv in He.
    destruct He as [(v & _ & _ & ->) | [-> | [(t & s & Ht & Hs & Hlt & ->)
      | [(t & en & Ht & Hen & Hlt & ->) | [-> | ->]]]]].
    - now rewrite (proj1 (proj2 (msg_variable_kind _ _))) in Hk.
    - discriminate.
    - exists t. split; [assumption|]. left. eauto.
    - exists t. split; [assumption|]. right. eauto.
    - discriminate.
    - now rewrite (proj1 (proj2 (msg_outside_kind _))) in Hk. }
  split; [|split].
  - intros (e & He & Hk). eauto.
  - intros Hsup (t & Ht & Hrange).
    unfold check_arguments.
    rewrite (check_variables_supported _ _ Hsup), Ht. simpl.
    unfold check_start, check_end.
    destruct (startTime self) as [s|] eqn:Hs; simpl.
    + destruct (Z.ltb_spec t s) as [Hlt|Hge]; simpl.
      * eexists. split; [reflexivity | apply msg_before_kind].
      * destruct Hrange as [(s' & [= <-] & Hlt) | (en & Hen & Hlt)]; [lia|].
        rewrite Hen. simpl.
        destruct (Z.ltb_spec en t); [|lia].
        eexists. split; [reflexivity | apply msg_after_kind].
    + destruct Hrange as [(s' & [=] & _) | (en & Hen & Hlt)].
      rewrite Hen. simpl.
      destruct (Z.ltb_spec en t); [|lia].
      eexists. split; [reflexivity | apply msg_after_kind].
  - intros (t & Ht & Hs & Hen) e He.
    destruct (is_time_out_of_range e) eqn:Hk; [|reflexivity].
    destruct (Honly e He Hk) as (t' & Ht' & Hrange).
    rewrite Ht in Ht'. injection Ht' as <-.
    destruct Hrange as [(s & Hs' & Hlt) | (en & Hen' & Hlt)].
    + specialize (Hs s Hs'). lia.
    + specialize (Hen en Hen'). lia.
Qed.


(** C10.  With a scalar [x] (whatever [y] is, a scalar included)
    [check_arguments] never returns: [np.asarray] makes [x] a 0-d array, on
    which [len] raises [TypeError]; that is the exception of the call once
    the variable and time checks have passed.  An empty pair of arrays is
    rejected too, as all outside. *)
Theorem check_arguments_scalar_x (self : Reader) (vars : variables_arg)
    (time : option Z) (q : Q) (y depth : arraylike) :
  (forall out, check_arguments datetime_str self vars time (Scalar q) y depth
               <> Ok out) /\
  asarray (Scalar q) = Nd0 q /\
  py_len (asarray (Scalar q)) = Raise TypeError /\
  (supported self (to_list vars) ->
   time_covered self (default_time self time) ->
   check_arguments datetime_str self vars time (Scalar q) y depth =
     Raise TypeError) /\
  (supported self (to_list vars) ->
   time_covered self (default_time self time) ->
   check_arguments datetime_str self vars time (Seq []) (Seq []) depth =
     Raise (ValueError (msg_outside (name self)))).
Proof.
  repeat split.
  - intros out. pass_checks.
    destruct (outside_mask _ _ _) as [mask|]; simpl; discriminate.
  - intros Hsup Hcov. unfold check_arguments.
    rewrite (check_variables_supported _ _ Hsup),
            (check_start_covered _ _ Hcov), (check_end_covered _ _ Hcov).
    simpl.
    destruct (outside_mask_scalar_x self q (asarray y)) as (mask & ->).
    reflexivity.
  - intros Hsup Hcov. unfold check_arguments.
    rewrite (check_variables_supported _ _ Hsup),
            (check_start_covered _ _ Hcov), (check_end_covered _ _ Hcov).
    reflexivity.
Qed.

End CheckArguments.

(** *** Witnesses on the sample reader *)

Lemma check_arguments_unsupported_variable_witness :
  check_arguments micros_str wind_reader
    (VList ["x_wind"; "sea_water_temperature"; "y_wind"]) None
    (Seq [5]) (Seq [7]) (Seq [0]) =
  Raise (ValueError
           (msg_variable "sea_water_temperature" (variables wind_reader))) /\
  (forall e,
      check_arguments micros_str wind_reader (VStr "x_wind") (Some (-1)%Z)
        (Seq [5]) (Seq [7]) (Seq [0]) = Raise e ->
      is_unsupported_variable e = false).
Proof.
  split.
  - refine (proj1 (proj1 (check_arguments_unsupported_variable micros_str
              wind_reader
              (VList ["x_wind"; "sea_water_temperature"; "y_wind"]) None
              (Seq [5]) (Seq [7]) (Seq [0]))
              ["x_wind"] "sea_water_temperature" ["y_wind"] _ _ _)).
    + reflexivity.
    + constructor; [simpl; auto | constructor].
    + simpl. intros [H | [H | []]]; discriminate.
  - apply (proj2 (check_arguments_unsupported_variable micros_str
              wind_reader (VStr "x_wind") (Some (-1)%Z)
              (Seq [5]) (Seq [7]) (Seq [0]))).
    constructor; [simpl; auto | constructor].
Defined.

Lemma check_arguments_time_out_of_range_witness :
  (exists e,
      check_arguments micros_str wind_reader (VStr "x_wind") (Some (-1)%Z)
        (Seq [5]) (Seq [7]) (Seq [0]) = Raise e /\
      is_time_out_of_range e = true) /\
  (forall e,
      check_arguments micros_str wind_reader (VStr "x_wind") (Some hour)
        (Seq [11]) (Seq [7]) (Seq [0]) = Raise e ->
      is_time_out_of_range e = false).
Proof.
  split.
  - apply (proj1 (proj2 (check_arguments_time_out_of_range micros_str
              wind_reader (VStr "x_wind") (Some (-1)%Z)
              (Seq [5]) (Seq [7]) (Seq [0])))).
    + constructor; [simpl; auto | constructor].
    + exists (-1)%Z. split; [reflexivity|].
      left. exists 0%Z. split; [reflexivity | lia].
  - apply (proj2 (proj2 (check_arguments_time_out_of_range micros_str
              wind_reader (VStr "x_wind") (Some hour)
              (Seq [11]) (Seq [7]) (Seq [0])))).
    exists hour. split; [reflexivity|]. split.
    + intros s [= <-]. unfold hour. lia.
    + intros e [= <-]. unfold hour. lia.
Defined.

(** C4, as first stated, fails where a requested variable is missing: the
    time lies before [startTime], and the exception is the variable one. *)
Lemma check_arguments_time_error_masked :
  ~ ((exists e,
         check_arguments micros_str wind_reader (VStr "salinity")
           (Some (-1)%Z) (Seq [5]) (Seq [7]) (Seq [0]) = Raise e /\
         is_time_out_of_range e = true) <->
     time_out_of_range wind_reader (default_time wind_reader (Some (-1)%Z))).
Proof.
  intros [_ Hif].
  destruct Hif as (e & He & Hk).
  - exists (-1)%Z. split; [reflexivity|].
    left. exists 0%Z. split; [reflexivity | lia].
  - vm_compute in He. injection He as <-. vm_compute in Hk. discriminate.
Qed.


Lemma check_arguments_scalar_x_witness :
  check_arguments micros_str wind_reader (VStr "x_wind") None
    (Scalar 5) (Scalar 7) (Scalar 0) = Raise TypeError.
Proof.
  apply (proj1 (proj2 (proj2 (proj2 (check_arguments_scalar_x micros_str
           wind_reader (VStr "x_wind") None 5 (Scalar 7) (Scalar 0)))))).
  - constructor; [simpl; auto | constructor].
  - exists 0%Z. split; [reflexivity|]. split.
    + intros s [= <-]. lia.
    + intros e [= <-]. unfold hour. lia.
Defined.

(** *** The outside mask *)

Lemma Qltb_lt (a b : Q) : Qltb a b = true <-> (a < b)%Q.
Proof.
  unfold Qltb. rewrite negb_true_iff. split.
  - intros H. apply Qnot_le_lt. intros Hle.
    apply Qle_bool_iff in Hle. congruence.
  - intros H. destruct (Qle_bool b a) eqn:E; [|reflexivity].
    apply Qle_bool_iff in E. exfalso. exact (Qlt_not_le _ _ H E).
Qed.

Lemma tested_iff (self : Reader) (px py : Q) :
  tested self px py = true <-> outside_tested self px py.
Proof.
  unfold tested, outside_tested.
  rewrite !orb_true_iff, !Qltb_lt. tauto.
Qed.

Lemma zip_with_length {A B C : Type} (f : A -> B -> C) (l1 : list A)
    (l2 : list B) :
  List.length (zip_with f l1 l2) = Nat.min (List.length l1) (List.length l2).
Proof.
  revert l2. induction l1 as [|a l1 IH]; intros [|b l2]; simpl; auto.
Qed.

Lemma nth_error_zip_with {A B C : Type} (f : A -> B -> C) (l1 : list A)
    (l2 : list B) (i : nat) (c : C) :
  nth_error (zip_with f l1 l2) i = Some c <->
  exists a b, nth_error l1 i = Some a /\ nth_error l2 i = Some b /\ c = f a b.
Proof.
  revert l2 i. induction l1 as [|a l1 IH]; intros [|b l2] [|i]; simpl;
    try (split; [discriminate | intros (a' & b' & Ha & Hb & _); discriminate]).
  - split.
    + intros [= <-]. eauto.
    + intros (a' & b' & [= <-] & [= <-] & ->). reflexivity.
  - apply IH.
Qed.

Lemma mask_fusion (self : Reader) (xs ys : list Q) :
  zip_with orb
    (zip_with orb
       (zip_with orb (map (fun v => Qltb v (xmin self)) xs)
                     (map (fun v => Qltb (xmax self) v) xs))
       (map (fun v => Qltb v (xmin self)) ys))
    (map (fun v => Qltb (ymax self) v) ys) =
  zip_with (tested self) xs ys.
Proof.
  revert ys. induction xs as [|px xs IH]; intros [|py ys]; simpl;
    try reflexivity.
  now rewrite IH.
Qed.

Lemma outside_mask_arrays (self : Reader) (xs ys : list Q) :
  List.length xs = List.length ys ->
  outside_mask self (Nd1 xs) (Nd1 ys) = Ok (Nd1 (zip_with (tested self) xs ys)).
Proof.
  intros Hlen. unfold outside_mask, nd_or. simpl.
  rewrite !length_map, Nat.eqb_refl. simpl.
  rewrite zip_with_length, !length_map, Nat.min_id, Hlen, Nat.eqb_refl. simpl.
  rewrite !zip_with_length, !length_map, Nat.min_id, Hlen, Nat.min_id,
          Nat.eqb_refl.
  now rewrite mask_fusion.
Qed.

Lemma In_where_from (l : list bool) (k i : nat) :
  In i (where_from k l) <->
  exists j, i = (k + j)%nat /\ nth_error l j = Some true.
Proof.
  revert k. induction l as [|b l IH]; intros k; simpl.
  - split; [contradiction | intros ([|j] & _ & Hj); discriminate].
  - assert (Htail : In i (where_from (S k) l) <->
                    exists j, i = (k + S j)%nat /\ nth_error l j = Some true).
    { rewrite IH. split; intros (j & -> & Hj); exists j; split; auto; lia. }
    destruct b; simpl; rewrite Htail; split.
    + intros [<- | (j & -> & Hj)].
      * exists 0%nat. split; [lia | reflexivity].
      * exists (S j). auto.
    + intros ([|j] & -> & Hj); [left; lia | right; eauto].
    + intros (j & -> & Hj). exists (S j). auto.
    + intros ([|j] & -> & Hj); [discriminate | eauto].
Qed.

Lemma where_from_length (l : list bool) (k : nat) :
  (List.length (where_from k l) <= List.length l)%nat.
Proof.
  revert k. induction l as [|[] l IH]; intros k; simpl.
  - lia.
  - specialize (IH (S k)). lia.
  - specialize (IH (S k)). lia.
Qed.

Lemma where_from_full (l : list bool) (k : nat) :
  List.length (where_from k l) = List.length l <->
  Forall (fun b => b = true) l.
Proof.
  revert k. induction l as [|b l IH]; intros k; simpl.
  - split; [constructor | reflexivity].
  - destruct b; simpl.
    + rewrite Nat.succ_inj_wd, IH. split.
      * intros H. now constructor.
      * intros H. now inversion H.
    + split.
      * intros H. pose proof (where_from_length l (S k)). lia.
      * intros H. inversion H. discriminate.
Qed.

Lemma Forall_zip_with_tested (self : Reader) (xs ys : list Q) :
  Forall (fun b => b = true) (zip_with (tested self) xs ys) <->
  forall i px py, point_at xs ys i px py -> outside_tested self px py.
Proof.
  rewrite Forall_forall. split.
  - intros H i px py [Hx Hy]. apply tested_iff. apply H.
    apply (nth_error_In _ i). apply nth_error_zip_with. eauto.
  - intros H b Hb. apply In_nth_error in Hb. destruct Hb as (i & Hi).
    apply nth_error_zip_with in Hi. destruct Hi as (px & py & Hx & Hy & ->).
    apply tested_iff. apply (H i). now split.
Qed.

Section OutsideMask.

Variable datetime_str : Z -> string.

(** What the returned [outside] holds, for two arrays of one length: the
    indices of the points that the source tests as outside. *)
Lemma check_arguments_outside_tested (self : Reader) (vars : variables_arg)
    (time : option Z) (xs ys : list Q) (depth : arraylike)
    (vs : list string) (t : option Z) (x' y' depth' : ndarray Q)
    (outside : list nat) :
  List.length xs = List.length ys ->
  check_arguments datetime_str self vars time (Seq xs) (Seq ys) depth =
    Ok (vs, t, x', y', depth', outside) ->
  forall i, In i outside <->
            exists px py, point_at xs ys i px py /\ outside_tested self px py.
Proof.
  intros Hlen. pass_checks.
  rewrite (outside_mask_arrays self xs ys Hlen). simpl.
  destruct (Nat.eqb _ _); [discriminate|].
  intros [= _ _ _ _ _ <-] i.
  rewrite In_where_from. split.
  - intros (j & -> & Hj). simpl.
    apply nth_error_zip_with in Hj. destruct Hj as (px & py & Hx & Hy & Ht).
    exists px, py. split; [now split | now apply tested_iff].
  - intros (px & py & [Hx Hy] & Ht). exists i. split; [reflexivity|].
    apply nth_error_zip_with. exists px, py. repeat split; auto.
    symmetry. now apply tested_iff.
Qed.

(** Once the variable and time checks have passed, a request of two arrays
    of one length is rejected as all outside exactly when every point is
    tested as outside, and is answered otherwise. *)
Lemma check_arguments_all_outside_tested (self : Reader)
    (vars : variables_arg) (time : option Z) (xs ys : list Q)
    (depth : arraylike) :
  supported self (to_list vars) ->
  time_covered self (default_time self time) ->
  List.length xs = List.length ys ->
  ((forall i px py, point_at xs ys i px py -> outside_tested self px py) ->
   check_arguments datetime_str self vars time (Seq xs) (Seq ys) depth =
     Raise (ValueError (msg_outside (name self)))) /\
  (~ (forall i px py, point_at xs ys i px py -> outside_tested self px py) ->
   succeeds (check_arguments datetime_str self vars time (Seq xs) (Seq ys)
               depth)).
Proof.
  intros Hsup Hcov Hlen. unfold check_arguments.
  rewrite (check_variables_supported _ _ Hsup),
          (check_start_covered _ _ _ Hcov), (check_end_covered _ _ _ Hcov).
  simpl. rewrite (outside_mask_arrays self xs ys Hlen). simpl.
  assert (Hfull : List.length (where_from 0 (zip_with (tested self) xs ys)) =
                  List.length xs <->
                  forall i px py, point_at xs ys i px py ->
                                  outside_tested self px py).
  { rewrite <- Forall_zip_with_tested, <- where_from_full.
    now rewrite zip_with_length, Hlen, Nat.min_id. }
  destruct (Nat.eqb_spec
              (List.length (where_from 0 (zip_with (tested self) xs ys)))
              (List.length xs)) as [Heq | Hne]; split.
  - reflexivity.
  - intros Hnot. exfalso. apply Hnot. now apply Hfull.
  - intros Hall. exfalso. apply Hne. now apply Hfull.
  - intros _. eexists. reflexivity.
Qed.

(** With [xmin] and [ymin] equal the tested region is the bounding box. *)
Lemma outside_tested_box (self : Reader) (px py : Q) :
  (xmin self == ymin self)%Q ->
  (outside_tested self px py <-> outside_box self px py).
Proof.
  intros Heq. unfold outside_tested, outside_box. now rewrite Heq.
Qed.

End OutsideMask.

(** C1.  On the sample reader ([xmin = 0], [ymin = 5]) the point [(5, 2)]
    lies under [ymin], outside the bounding box, and the returned [outside]
    is empty: the mask compares [y] with [xmin]. *)
Theorem check_arguments_outside_misses_ymin :
  check_arguments micros_str wind_reader (VStr "x_wind") None
    (Seq [5; 5]) (Seq [2; 7]) (Seq [0; 0]) =
    Ok (["x_wind"], Some 0%Z, Nd1 [5; 5], Nd1 [2; 7], Nd1 [0; 0], []) /\
  point_at [5; 5] [2; 7] 0 5 2 /\
  outside_box wind_reader 5 2.
Proof.
  split; [reflexivity|]. split; [split; reflexivity|].
  right; right; left. reflexivity.
Qed.

(** C2.  On the sample reader a request whose two points both lie under
    [ymin], hence all outside the bounding box, is answered and not
    rejected. *)
Theorem check_arguments_all_outside_accepted :
  check_arguments micros_str wind_reader (VStr "x_wind") None
    (Seq [5; 6]) (Seq [2; 3]) (Seq [0; 0]) =
    Ok (["x_wind"], Some 0%Z, Nd1 [5; 6], Nd1 [2; 3], Nd1 [0; 0], []) /\
  outside_box wind_reader 5 2 /\
  outside_box wind_reader 6 3.
Proof.
  split; [reflexivity|].
  split; right; right; left; reflexivity.
Qed.

(** ** Properties of index_of_closest_time *)

Local Open Scope Z_scope.

(** The rounded quotient is within one half of the quotient. *)
Lemma round_pos_bounds (m : rounding) (num den : Z) :
  0 < den ->
  2 * num - den <= 2 * (den * round_pos m num den) <= 2 * num + den.
Proof.
  intros Hden. unfold round_pos.
  pose proof (Z.div_mod num den ltac:(lia)) as Hdm.
  pose proof (Z.mod_pos_bound num den Hden) as Hmod.
  set (f := num / den) in *. set (r := num mod den) in *.
  destruct (Z.compare_spec (2 * r) den) as [Heq | Hlt | Hgt].
  - destruct m.
    + destruct (0 <=? num); lia.
    + destruct (Z.even f); lia.
  - lia.
  - lia.
Qed.

(** An integer strictly within one half of the quotient is the rounded
    quotient, whatever the tie policy. *)
Lemma round_pos_nearest (m : rounding) (num den k : Z) :
  0 < den ->
  - den < 2 * (num - k * den) < den ->
  round_pos m num den = k.
Proof.
  intros Hden Hk.
  pose proof (round_pos_bounds m num den Hden) as Hr.
  set (r := round_pos m num den) in *.
  assert (H1 : den * (r - k) < den * 1) by lia.
  assert (H2 : den * (-1) < den * (r - k)) by lia.
  apply Z.mul_lt_mono_pos_l in H1; [|assumption].
  apply Z.mul_lt_mono_pos_l in H2; [|assumption].
  lia.
Qed.

Lemma py_round_pos (m : rounding) (num den : Z) :
  0 < den -> py_round m num den = round_pos m num den.
Proof.
  intros Hden. unfold py_round.
  destruct (Z.ltb_spec den 0); [lia | reflexivity].
Qed.

Lemma py_getitem_nonneg {A : Type} (l : list A) (i : Z) (a : A) :
  0 <= i -> nth_error l (Z.to_nat i) = Some a -> py_getitem l i = Ok a.
Proof.
  intros Hi Hnth. unfold py_getitem.
  destruct (Z.ltb_spec i 0); [lia|].
  destruct (Z.ltb_spec i 0); [lia|].
  now rewrite Hnth.
Qed.

Lemma py_getitem_negative {A : Type} (l : list A) (i : Z) :
  - Z.of_nat (List.length l) <= i < 0 ->
  exists a, nth_error l (Z.to_nat (Z.of_nat (List.length l) + i)) = Some a /\
            py_getitem l i = Ok a.
Proof.
  intros Hi. unfold py_getitem.
  destruct (Z.ltb_spec i 0); [|lia].
  destruct (Z.ltb_spec (i + Z.of_nat (List.length l)) 0); [lia|].
  rewrite (Z.add_comm (Z.of_nat _) i).
  destruct (nth_error l (Z.to_nat (i + Z.of_nat (List.length l)))) as [a|] eqn:E.
  - eauto.
  - apply nth_error_None in E. lia.
Qed.



Lemma index_of_closest_time_eq (m : rounding) (self : Reader)
    (start step req : Z) :
  startTime self = Some start -> timeStep self = Some step -> 0 < step ->
  index_of_closest_time m self req =
    (nearestTime <- py_getitem (times self) (round_pos m (req - start) step) ;;
     Ok (round_pos m (req - start) step, nearestTime)).
Proof.
  intros Hs Ht Hpos. unfold index_of_closest_time. rewrite Hs, Ht.
  destruct (Z.eqb_spec step 0); [lia|].
  now rewrite py_round_pos.
Qed.





(** The doubles of the request one microsecond before the middle of the
    samples 6697 and 6698: the two [total_seconds()] are 17359920000.0 (the
    odd microsecond is rounded away) and 2592000.0, their quotient is
    6697.5, which either [round] takes to 6698; a quotient of 2.5 shows the
    two policies apart. *)
Lemma before_middle_doubles :
  total_seconds before_middle =
    PrimFloat.of_uint63 (Uint63.of_Z 17359920000) /\
  total_seconds (30 * day) = PrimFloat.of_uint63 (Uint63.of_Z 2592000) /\
  PrimFloat.div (total_seconds before_middle) (total_seconds (30 * day)) =
    PrimFloat.div (PrimFloat.of_uint63 (Uint63.of_Z 13395))
                  (PrimFloat.of_uint63 (Uint63.of_Z 2)) /\
  (forall m,
      int_round m (PrimFloat.div (total_seconds before_middle)
                                 (total_seconds (30 * day))) = Ok 6698) /\
  int_round HalfAwayFromZero
            (PrimFloat.div (total_seconds 2500000) (total_seconds 1000000)) =
    Ok 3 /\
  int_round HalfToEven
            (PrimFloat.div (total_seconds 2500000) (total_seconds 1000000)) =
    Ok 2.
Proof.
  repeat split; try (vm_compute; reflexivity).
  intros []; vm_compute; reflexivity.
Qed.



Local Close Scope Z_scope.





(** ** Properties of indices_min_max_depth *)

Lemma first_index_some (v : bool) (l : list bool) (i : nat) :
  first_index v l = Some i ->
  nth_error l i = Some v /\
  forall j, (j < i)%nat -> nth_error l j = Some (negb v).
Proof.
  revert i. induction l as [|b l IH]; intros i; simpl; [discriminate|].
  destruct (Bool.eqb b v) eqn:E.
  - intros [= <-]. apply eqb_prop in E. subst. split; [reflexivity|].
    intros j Hj. lia.
  - destruct (first_index v l) as [i'|]; simpl; [|discriminate].
    intros [= <-]. destruct (IH i' eq_refl) as [Hnth Hbefore].
    split; [assumption|].
    intros [|j] Hj; simpl.
    + f_equal. apply eqb_false_iff in E. destruct b, v; simpl; congruence.
    + apply Hbefore. lia.
Qed.

Lemma first_index_none (v : bool) (l : list bool) :
  first_index v l = None -> Forall (fun b => b = negb v) l.
Proof.
  induction l as [|b l IH]; simpl; [constructor|].
  destruct (Bool.eqb b v) eqn:E; [discriminate|].
  destruct (first_index v l); simpl; [discriminate|].
  intros _. constructor; [|now apply IH].
  apply eqb_false_iff in E. destruct b, v; simpl; congruence.
Qed.

(** [argmin] of a non-empty mask: [0] when every entry is [true], the
    position of the first [false] otherwise. *)
Lemma argmin_spec (l : list bool) :
  l <> [] ->
  exists a, argmin l = Ok (Z.of_nat a) /\ (a < List.length l)%nat /\
    ((a = 0%nat /\ Forall (fun b => b = true) l) \/
     (nth_error l a = Some false /\
      forall j, (j < a)%nat -> nth_error l j = Some true)).
Proof.
  destruct l as [|b l]; [congruence|]. intros _. unfold argmin.
  destruct (forallb (fun b => b) (b :: l)) eqn:E.
  - assert (Hall : Forall (fun b => b = true) (b :: l)).
    { apply Forall_forall. intros c Hc.
      exact (proj1 (forallb_forall _ _) E c Hc). }
    inversion Hall; subst. simpl. exists 0%nat.
    split; [reflexivity|]. split; [simpl; lia | now left].
  - destruct (first_index false (b :: l)) as [i|] eqn:F.
    + destruct (first_index_some _ _ _ F) as [Hnth Hbefore].
      exists i. split; [reflexivity|]. split; [|now right].
      apply nth_error_Some. congruence.
    + apply first_index_none in F. exfalso.
      assert (forallb (fun b => b) (b :: l) = true); [|congruence].
      apply forallb_forall. rewrite Forall_forall in F. exact F.
Qed.

(** [argmax] of a non-empty mask: [0] when every entry is [false], the
    position of the first [true] otherwise. *)
Lemma argmax_spec (l : list bool) :
  l <> [] ->
  exists a, argmax l = Ok (Z.of_nat a) /\ (a < List.length l)%nat /\
    ((a = 0%nat /\ Forall (fun b => b = false) l) \/
     (nth_error l a = Some true /\
      forall j, (j < a)%nat -> nth_error l j = Some false)).
Proof.
  destruct l as [|b l]; [congruence|]. intros _. unfold argmax.
  destruct (existsb (fun b => b) (b :: l)) eqn:E.
  - destruct (first_index true (b :: l)) as [i|] eqn:F.
    + destruct (first_index_some _ _ _ F) as [Hnth Hbefore].
      exists i. split; [reflexivity|]. split; [|now right].
      apply nth_error_Some. congruence.
    + apply first_index_none in F. exfalso.
      apply existsb_exists in E. destruct E as (c & Hc & ->).
      rewrite Forall_forall in F. specialize (F _ Hc). discriminate.
  - assert (Hall : Forall (fun b => b = false) (b :: l)).
    { apply Forall_forall. intros c Hc. destruct c; [|reflexivity].
      assert (existsb (fun b => b) (b :: l) = true); [|congruence].
      apply existsb_exists. eauto. }
    inversion Hall; subst. simpl. exists 0%nat.
    split; [reflexivity|]. split; [simpl; lia | now left].
Qed.

Lemma Qmin'_le (a b : Q) : (Qmin' a b <= a)%Q.
Proof.
  unfold Qmin'. destruct (Qle_bool a b) eqn:E; [apply Qle_refl|].
  apply Qlt_le_weak, Qnot_le_lt. intros H.
  apply Qle_bool_iff in H. congruence.
Qed.

Lemma Qmax'_ge (a b : Q) : (a <= Qmax' a b)%Q.
Proof.
  unfold Qmax'. destruct (Qle_bool a b) eqn:E; [|apply Qle_refl].
  now apply Qle_bool_iff.
Qed.

Lemma fold_min_le (l : list Q) (q : Q) : (fold_left Qmin' l q <= q)%Q.
Proof.
  revert q. induction l as [|a l IH]; intros q; simpl; [apply Qle_refl|].
  eapply Qle_trans; [apply IH | apply Qmin'_le].
Qed.

Lemma fold_max_ge (l : list Q) (q : Q) : (q <= fold_left Qmax' l q)%Q.
Proof.
  revert q. induction l as [|a l IH]; intros q; simpl; [apply Qle_refl|].
  eapply Qle_trans; [apply Qmax'_ge | apply IH].
Qed.

(** A non-empty request has a least and a greatest depth. *)
Lemma nd_min_max (requested : ndarray Q) :
  requested <> Nd1 [] ->
  exists lo hi, nd_min requested = Ok lo /\ nd_max requested = Ok hi /\
                (lo <= hi)%Q.
Proof.
  destruct requested as [q | [|q l]]; intros Hne; [| congruence |]; simpl.
  - exists q, q. repeat split. apply Qle_refl.
  - exists (fold_left Qmin' l q), (fold_left Qmax' l q). repeat split.
    eapply Qle_trans; [apply fold_min_le | apply fold_max_ge].
Qed.

Lemma increasing_tail (a : Q) (l : list Q) :
  increasing (a :: l) -> increasing l.
Proof. destruct l as [|b l]; simpl; tauto. Qed.

Lemma increasing_head (l : list Q) (a : Q) (j : nat) (b : Q) :
  increasing (a :: l) -> nth_error l j = Some b -> (a < b)%Q.
Proof.
  revert a j. induction l as [|c l IH]; intros a j Hinc Hj.
  - destruct j; discriminate.
  - destruct Hinc as [Hac Hinc]. destruct j as [|j]; simpl in Hj.
    + injection Hj as <-. exact Hac.
    + eapply Qlt_trans; [exact Hac | exact (IH c j Hinc Hj)].
Qed.

Lemma increasing_nth (l : list Q) (i j : nat) (a b : Q) :
  increasing l -> (i < j)%nat ->
  nth_error l i = Some a -> nth_error l j = Some b -> (a < b)%Q.
Proof.
  revert i j. induction l as [|c l IH]; intros i j Hinc Hij Hi Hj.
  - destruct i; discriminate.
  - destruct j as [|j]; [lia|]. destruct i as [|i]; simpl in Hi, Hj.
    + injection Hi as <-. exact (increasing_head l c j b Hinc Hj).
    + apply (IH i j); auto; [now apply increasing_tail in Hinc | lia].
Qed.

Lemma py_getitem_valid {A : Type} (l : list A) (i : Z) :
  valid_index l i -> succeeds (py_getitem l i).
Proof.
  unfold valid_index. intros Hi.
  destruct (Z.ltb_spec i 0) as [Hneg | Hpos].
  - destruct (py_getitem_negative l i) as (a & _ & Hget); [lia|].
    now exists a.
  - destruct (nth_error l (Z.to_nat i)) as [a|] eqn:E.
    + exists a. now apply py_getitem_nonneg.
    + apply nth_error_None in E. lia.
Qed.

Lemma indices_min_max_depth_eq (self : Reader) (requested : ndarray Q)
    (lo hi : Q) :
  depths self <> [] ->
  nd_min requested = Ok lo -> nd_max requested = Ok hi ->
  exists a maxIndex,
    argmin (map (fun d => Qle_bool d lo) (depths self)) = Ok (Z.of_nat a) /\
    argmax (map (fun d => Qle_bool hi d) (depths self)) =
      Ok (Z.of_nat maxIndex) /\
    indices_min_max_depth self requested =
      Ok ((Z.of_nat a - 1)%Z, Z.of_nat maxIndex).
Proof.
  intros Hne Hlo Hhi.
  assert (Hmap : forall f : Q -> bool, map f (depths self) <> []).
  { intros f H. apply map_eq_nil in H. contradiction. }
  destruct (argmin_spec _ (Hmap (fun d => Qle_bool d lo))) as (a & Ha & _).
  destruct (argmax_spec _ (Hmap (fun d => Qle_bool hi d))) as (b & Hb & _).
  exists a, b. unfold indices_min_max_depth.
  rewrite Hlo, Hhi. simpl. rewrite Ha. simpl. rewrite Hb. auto.
Qed.

(** Where the depth levels increase, the first one is no deeper than the
    least requested depth, some level is strictly deeper than it and some
    level is at least as deep as the greatest requested depth, [minIndex]
    is the largest index of a level no deeper than the least requested
    depth and [maxIndex] the first index of a level at least as deep as the
    greatest one. *)
Lemma indices_min_max_depth_covered (self : Reader) (requested : ndarray Q)
    (lo hi d0 : Q) :
  increasing (depths self) ->
  nd_min requested = Ok lo -> nd_max requested = Ok hi ->
  nth_error (depths self) 0 = Some d0 -> (d0 <= lo)%Q ->
  (exists i d, nth_error (depths self) i = Some d /\ (lo < d)%Q) ->
  (exists i d, nth_error (depths self) i = Some d /\ (hi <= d)%Q) ->
  exists minIndex maxIndex,
    indices_min_max_depth self requested =
      Ok (Z.of_nat minIndex, Z.of_nat maxIndex) /\
    (exists d, nth_error (depths self) minIndex = Some d /\ (d <= lo)%Q) /\
    (forall j d, (minIndex < j)%nat -> nth_error (depths self) j = Some d ->
                 (lo < d)%Q) /\
    (exists d, nth_error (depths self) maxIndex = Some d /\ (hi <= d)%Q) /\
    (forall j d, (j < maxIndex)%nat -> nth_error (depths self) j = Some d ->
                 (d < hi)%Q).
Proof.
  intros Hinc Hlo Hhi Hd0 Hfirst (i1 & d1 & Hi1 & Hdeeper) (i2 & d2 & Hi2 & Hcover).
  assert (Hne : depths self <> []) by (intros H; rewrite H in Hd0; discriminate).
  assert (Hmap : forall f : Q -> bool, map f (depths self) <> []).
  { intros f H. apply map_eq_nil in H. contradiction. }
  destruct (argmin_spec _ (Hmap (fun d => Qle_bool d lo)))
    as (a & Ha & Halt & Hacase).
  destruct (argmax_spec _ (Hmap (fun d => Qle_bool hi d)))
    as (b & Hb & Hblt & Hbcase).
  (* the first level deeper than [lo] *)
  destruct Hacase as [[_ Hall] | [Hafalse Habefore]].
  { exfalso. rewrite Forall_forall in Hall.
    assert (Hin : In (Qle_bool d1 lo) (map (fun d => Qle_bool d lo) (depths self))).
    { apply (in_map (fun d => Qle_bool d lo)). eapply nth_error_In; eauto. }
    pose proof (Hall _ Hin) as Hle. apply Qle_bool_iff in Hle.
    exact (Qlt_not_le _ _ Hdeeper Hle). }
  rewrite nth_error_map in Hafalse.
  destruct (nth_error (depths self) a) as [da|] eqn:Hda; [|discriminate].
  injection Hafalse as Hafalse.
  assert (Hlo_da : (lo < da)%Q).
  { apply Qnot_le_lt. intros H. apply Qle_bool_iff in H. congruence. }
  destruct a as [|a'].
  { exfalso. rewrite Hd0 in Hda. injection Hda as <-.
    exact (Qlt_not_le _ _ Hlo_da Hfirst). }
  (* the first level at least as deep as [hi] *)
  destruct Hbcase as [[_ Hall] | [Hbtrue Hbbefore]].
  { exfalso. rewrite Forall_forall in Hall.
    assert (Hin : In (Qle_bool hi d2) (map (fun d => Qle_bool hi d) (depths self))).
    { apply (in_map (fun d => Qle_bool hi d)). eapply nth_error_In; eauto. }
    pose proof (Hall _ Hin) as Hle. apply Qle_bool_iff in Hcover. congruence. }
  rewrite nth_error_map in Hbtrue.
  destruct (nth_error (depths self) b) as [db|] eqn:Hdb; [|discriminate].
  injection Hbtrue as Hbtrue. apply Qle_bool_iff in Hbtrue.
  exists a', b. split; [|split; [|split; [|split]]].
  - unfold indices_min_max_depth. rewrite Hlo, Hhi. cbn [bind].
    rewrite Ha. cbn [bind]. rewrite Hb. cbn [bind]. do 2 f_equal. lia.
  - specialize (Habefore a' ltac:(lia)). rewrite nth_error_map in Habefore.
    destruct (nth_error (depths self) a') as [d|]; [|discriminate].
    injection Habefore as Habefore. exists d. split; [reflexivity|].
    now apply Qle_bool_iff.
  - intros j d Hj Hjd.
    destruct (Nat.eq_dec j (S a')) as [-> | Hneq].
    + rewrite Hda in Hjd. injection Hjd as <-. exact Hlo_da.
    + eapply Qlt_trans; [exact Hlo_da|].
      apply (increasing_nth (depths self) (S a') j); auto. lia.
  - exists db. split; [exact Hdb | assumption].
  - intros j d Hj Hjd. specialize (Hbbefore j Hj).
    rewrite nth_error_map, Hjd in Hbbefore. injection Hbbefore as Hbb.
    apply Qnot_le_lt. intros H. apply Qle_bool_iff in H. congruence.
Qed.

(** An empty request and an empty depth axis are refused by numpy. *)
Lemma indices_min_max_depth_empty (self : Reader) (requested : ndarray Q) :
  requested = Nd1 [] \/ depths self = [] ->
  indices_min_max_depth self requested = Raise empty_reduction.
Proof.
  unfold indices_min_max_depth. intros [-> | Hd]; [reflexivity|].
  rewrite Hd. destruct requested as [q | [|q l]]; reflexivity.
Qed.

(** C6.  On the sample depth axis [0, 10, 20, 30, 50] the request [12, 25]
    gives [(1, 3)], and the request of the deepest level alone, [50], which
    the axis spans, gives [minIndex = -1], where the largest index of a
    level no deeper than [50] is [4]. *)
Theorem indices_min_max_depth_deepest_level :
  indices_min_max_depth wind_reader (Nd1 [12; 25]) = Ok (1%Z, 3%Z) /\
  indices_min_max_depth wind_reader (Nd1 [50]) = Ok ((-1)%Z, 4%Z) /\
  increasing (depths wind_reader) /\
  nth_error (depths wind_reader) 0 = Some 0 /\
  nth_error (depths wind_reader) 4 = Some 50 /\
  List.length (depths wind_reader) = 5%nat /\
  (0 <= 50 <= 50)%Q.
Proof.
  repeat split; try reflexivity; discriminate.
Qed.

(** C7, as amended.  For a non-empty depth axis and a non-empty request the
    method returns a pair of valid Python indices of [depths], so that
    [depths[minIndex]] and [depths[maxIndex]] are defined; nothing is
    clamped, and [minIndex <= maxIndex] holds where the levels increase and
    some level is at least as deep as the greatest requested depth. *)
Theorem indices_min_max_depth_range (self : Reader) (requested : ndarray Q) :
  depths self <> [] ->
  requested <> Nd1 [] ->
  exists minIndex maxIndex hi,
    nd_max requested = Ok hi /\
    indices_min_max_depth self requested = Ok (minIndex, maxIndex) /\
    valid_index (depths self) minIndex /\
    valid_index (depths self) maxIndex /\
    succeeds (py_getitem (depths self) minIndex) /\
    succeeds (py_getitem (depths self) maxIndex) /\
    (increasing (depths self) ->
     (exists i d, nth_error (depths self) i = Some d /\ (hi <= d)%Q) ->
     (minIndex <= maxIndex)%Z).
Proof.
  intros Hne Hreq.
  destruct (nd_min_max requested Hreq) as (lo & hi & Hlo & Hhi & Hlohi).
  assert (Hmap : forall f : Q -> bool, map f (depths self) <> []).
  { intros f H. apply map_eq_nil in H. contradiction. }
  destruct (argmin_spec _ (Hmap (fun d => Qle_bool d lo)))
    as (a & Ha & Halt & Hacase).
  destruct (argmax_spec _ (Hmap (fun d => Qle_bool hi d)))
    as (b & Hb & Hblt & Hbcase).
  rewrite length_map in Halt, Hblt.
  assert (Hmin : valid_index (depths self) (Z.of_nat a - 1))
    by (unfold valid_index; lia).
  assert (Hmax : valid_index (depths self) (Z.of_nat b))
    by (unfold valid_index; lia).
  exists (Z.of_nat a - 1)%Z, (Z.of_nat b), hi.
  split; [exact Hhi|]. split.
  { unfold indices_min_max_depth. rewrite Hlo, Hhi. cbn [bind].
    rewrite Ha. cbn [bind]. rewrite Hb. reflexivity. }
  split; [exact Hmin|]. split; [exact Hmax|].
  split; [now apply py_getitem_valid|]. split; [now apply py_getitem_valid|].
  intros Hinc (i & d & Hi & Hcover).
  destruct a as [|a']; [lia|].
  destruct Hacase as [[Hzero _] | [_ Habefore]]; [discriminate|].
  specialize (Habefore a' ltac:(lia)). rewrite nth_error_map in Habefore.
  destruct (nth_error (depths self) a') as [da|] eqn:Hda; [|discriminate].
  injection Habefore as Hdalo. apply Qle_bool_iff in Hdalo.
  destruct Hbcase as [[_ Hall] | [Hbtrue _]].
  { exfalso. rewrite Forall_forall in Hall.
    assert (Hin : In (Qle_bool hi d)
                     (map (fun d => Qle_bool hi d) (depths self))).
    { apply (in_map (fun d => Qle_bool hi d)). eapply nth_error_In; eauto. }
    pose proof (Hall _ Hin) as Hle. apply Qle_bool_iff in Hcover. congruence. }
  rewrite nth_error_map in Hbtrue.
  destruct (nth_error (depths self) b) as [db|] eqn:Hdb; [|discriminate].
  injection Hbtrue as Hhidb. apply Qle_bool_iff in Hhidb.
  destruct (Nat.lt_ge_cases b a') as [Hlt | Hge]; [|lia].
  exfalso.
  pose proof (increasing_nth (depths self) b a' db da Hinc Hlt Hdb Hda) as Hlt'.
  apply (Qlt_not_le _ _ Hlt').
  eapply Qle_trans; [exact Hdalo|]. eapply Qle_trans; [exact Hlohi | exact Hhidb].
Qed.

Lemma indices_min_max_depth_range_witness :
  exists minIndex maxIndex,
    indices_min_max_depth wind_reader (Nd1 [12; 25]) = Ok (minIndex, maxIndex) /\
    succeeds (py_getitem (depths wind_reader) minIndex) /\
    (minIndex <= maxIndex)%Z.
Proof.
  destruct (indices_min_max_depth_range wind_reader (Nd1 [12; 25]))
    as (minIndex & maxIndex & hi & Hhi & Hres & _ & _ & Hget & _ & Hle).
  - discriminate.
  - discriminate.
  - exists minIndex, maxIndex. split; [exact Hres|]. split; [exact Hget|].
    apply Hle.
    + simpl. repeat split; reflexivity.
    + exists 4%nat, 50. split; [reflexivity|].
      vm_compute in Hhi. injection Hhi as <-. discriminate.
Defined.

(** C7, as first stated, fails where the axis ends above the greatest
    requested depth: on the levels [0, 10, 20] the request [15, 25] gives
    [(1, 0)]. *)
Lemma indices_min_max_depth_crossed :
  indices_min_max_depth shallow_reader (Nd1 [15; 25]) = Ok (1%Z, 0%Z) /\
  ~ (1 <= 0)%Z.
Proof.
  split; [reflexivity | lia].
Qed.

(** ** Further properties of check_arguments *)

Lemma substring_of_prefix (s rest : string) : substring_of s (s ++ rest).
Proof. exists "", rest. reflexivity. Qed.

Lemma asarray_of_ndarray (a : ndarray Q) : asarray (of_ndarray a) = a.
Proof. now destruct a. Qed.

Lemma default_time_idem (self : Reader) (time : option Z) :
  default_time self (default_time self time) = default_time self time.
Proof. unfold default_time. destruct time; [reflexivity|]. now destruct (startTime self). Qed.

Lemma where_from_ge (l : list bool) (k : nat) :
  Forall (fun i => (k <= i)%nat) (where_from k l).
Proof.
  revert k. induction l as [|b l IH]; intros k; simpl; [constructor|].
  assert (Htail : Forall (fun i => (k <= i)%nat) (where_from (S k) l)).
  { eapply Forall_impl; [|apply IH]. intros i Hi. simpl in Hi. lia. }
  destruct b; [constructor; [lia | exact Htail] | exact Htail].
Qed.

Lemma where_from_sorted (l : list bool) (k : nat) :
  StronglySorted lt (where_from k l).
Proof.
  revert k. induction l as [|b l IH]; intros k; simpl; [constructor|].
  destruct b; [|apply IH].
  constructor; [apply IH|].
  eapply Forall_impl; [|apply (where_from_ge l (S k))].
  intros i Hi. simpl in Hi. lia.
Qed.

Lemma where_from_count {A : Type} (g : A -> bool) (l : list A) (k : nat) :
  List.length (where_from k (map g l)) = List.length (filter g l).
Proof.
  revert k. induction l as [|a l IH]; intros k; simpl; [reflexivity|].
  destruct (g a); simpl; now rewrite IH.
Qed.

Lemma nd_map2_mismatch {A B C : Type} (f : A -> B -> C) (l1 : list A)
    (l2 : list B) :
  List.length l1 <> List.length l2 ->
  List.length l1 <> 1%nat -> List.length l2 <> 1%nat ->
  nd_map2 f (Nd1 l1) (Nd1 l2) = Raise broadcast_error.
Proof.
  intros Hne H1 H2. simpl.
  destruct (Nat.eqb_spec (List.length l1) (List.length l2)); [contradiction|].
  destruct l1 as [|a [|a' l1]], l2 as [|b [|b' l2]];
    simpl in *; congruence.
Qed.

Lemma outside_mask_scalar_y (self : Reader) (xs : list Q) (q : Q) :
  outside_mask self (Nd1 xs) (Nd0 q) =
  Ok (Nd1 (map (fun px => tested self px q) xs)).
Proof.
  unfold outside_mask, nd_or. simpl.
  rewrite !length_map, Nat.eqb_refl. simpl. do 2 f_equal.
  induction xs as [|px xs IH]; simpl; [reflexivity|].
  now rewrite IH.
Qed.

Lemma outside_mask_single_x (self : Reader) (px : Q) (ys : list Q) :
  List.length ys <> 1%nat ->
  outside_mask self (Nd1 [px]) (Nd1 ys) =
  Ok (Nd1 (map (fun py => tested self px py) ys)).
Proof.
  intros Hlen.
  destruct ys as [|y1 [|y2 ys]]; [reflexivity | simpl in Hlen; congruence |].
  unfold outside_mask, nd_or. simpl.
  rewrite !length_map, Nat.eqb_refl. unfold tested. do 4 f_equal.
  clear Hlen. induction ys as [|py ys IH]; simpl; [reflexivity|].
  now rewrite IH.
Qed.

Section MoreCheckArguments.

Variable datetime_str : Z -> string.

Lemma check_arguments_ok_inv (self : Reader) (vars : variables_arg)
    (time : option Z) (x y depth : arraylike) (vs : list string)
    (t : option Z) (x' y' depth' : ndarray Q) (outside : list nat) :
  check_arguments datetime_str self vars time x y depth =
    Ok (vs, t, x', y', depth', outside) ->
  vs = to_list vars /\ t = default_time self time /\
  x' = asarray x /\ y' = asarray y /\ depth' = asarray depth /\
  check_variables self vs = Ok tt /\
  check_start datetime_str self t = Ok tt /\
  check_end datetime_str self t = Ok tt /\
  exists mask n, outside_mask self x' y' = Ok mask /\
                 outside = np_where mask /\ py_len x' = Ok n /\
                 List.length outside <> n.
Proof.
  unfold check_arguments.
  destruct (check_variables _ _) as [[]|] eqn:Hv; simpl; [|discriminate].
  destruct (check_start _ _ _) as [[]|] eqn:Hs; simpl; [|discriminate].
  destruct (check_end _ _ _) as [[]|] eqn:He; simpl; [|discriminate].
  destruct (outside_mask _ _ _) as [mask|] eqn:Hm; simpl; [|discriminate].
  destruct (py_len _) as [n|] eqn:Hn; simpl; [|discriminate].
  destruct (Nat.eqb_spec (List.length (np_where mask)) n) as [|Hne];
    [discriminate|].
  intros [= <- <- <- <- <- <-].
  repeat split; auto. exists mask, n. auto.
Qed.

(** X1.  [check_arguments] never looks into [depth]: with another [depth]
    the call raises the same exception, or returns the same values with the
    other [depth] as an array. *)
Theorem check_arguments_ignores_depth (self : Reader) (vars : variables_arg)
    (time : option Z) (x y d1 d2 : arraylike) :
  match check_arguments datetime_str self vars time x y d1 with
  | Ok (vs, t, x', y', _, outside) =>
      check_arguments datetime_str self vars time x y d2 =
        Ok (vs, t, x', y', asarray d2, outside)
  | Raise e => check_arguments datetime_str self vars time x y d2 = Raise e
  end.
Proof.
  unfold check_arguments.
  destruct (check_variables _ _) as [[]|]; simpl; [|reflexivity].
  destruct (check_start _ _ _) as [[]|]; simpl; [|reflexivity].
  destruct (check_end _ _ _) as [[]|]; simpl; [|reflexivity].
  destruct (outside_mask _ _ _) as [mask|]; simpl; [|reflexivity].
  destruct (py_len _) as [n|]; simpl; [|reflexivity].
  destruct (Nat.eqb _ n); reflexivity.
Qed.

(** X2.  What a caller may rely on after a successful [check_arguments]:
    every returned variable is in the catalog, the returned time is a
    datetime not before a defined [startTime] and not after a defined
    [endTime], [x] is a 1-d array, and the flagged indices are fewer or more
    than the entries of [x], never as many. *)
Theorem check_arguments_postcondition (self : Reader) (vars : variables_arg)
    (time : option Z) (x y depth : arraylike) (vs : list string)
    (t : option Z) (x' y' depth' : ndarray Q) (outside : list nat) :
  check_arguments datetime_str self vars time x y depth =
    Ok (vs, t, x', y', depth', outside) ->
  supported self vs /\
  (forall s, startTime self = Some s ->
             exists t0, t = Some t0 /\ (s <= t0)%Z) /\
  (forall e, endTime self = Some e ->
             exists t0, t = Some t0 /\ (t0 <= e)%Z) /\
  exists xs, x' = Nd1 xs /\ List.length outside <> List.length xs.
Proof.
  intros H. apply check_arguments_ok_inv in H.
  destruct H as (_ & _ & _ & _ & _ & Hv & Hs & He & mask & n & _ & _ & Hn & Hne).
  split; [now apply check_variables_ok_inv|]. split; [|split].
  - intros s Hstart. unfold check_start in Hs. rewrite Hstart in Hs.
    destruct t as [t0|]; simpl in Hs; [|discriminate].
    exists t0. split; [reflexivity|].
    destruct (Z.ltb_spec t0 s); [discriminate | lia].
  - intros e Hend. unfold check_end in He. rewrite Hend in He.
    destruct t as [t0|]; simpl in He; [|discriminate].
    exists t0. split; [reflexivity|].
    destruct (Z.ltb_spec e t0); [discriminate | lia].
  - destruct x' as [q|xs]; simpl in Hn; [discriminate|].
    injection Hn as <-. exists xs. auto.
Qed.

(** X3.  With every requested variable in the catalog, a time before
    [startTime] gives the "before first available time" error and a time
    after [endTime] (and not before [startTime]) the "after last available
    time" error, whatever the positions are; each message holds the
    requested time and the bound. *)
Theorem check_arguments_time_messages (self : Reader) (vars : variables_arg)
    (time : option Z) (x y depth : arraylike) (t : Z) :
  supported self (to_list vars) ->
  default_time self time = Some t ->
  (forall s, startTime self = Some s -> (t < s)%Z ->
     let msg := msg_before datetime_str (Some t) (Some s) in
     check_arguments datetime_str self vars time x y depth =
       Raise (ValueError msg) /\
     substring_of (datetime_str t) msg /\ substring_of (datetime_str s) msg) /\
  (forall e, endTime self = Some e -> (e < t)%Z ->
     (forall s, startTime self = Some s -> (s <= t)%Z) ->
     let msg := msg_after datetime_str (Some t) (Some e) in
     check_arguments datetime_str self vars time x y depth =
       Raise (ValueError msg) /\
     substring_of (datetime_str t) msg /\ substring_of (datetime_str e) msg).
Proof.
  intros Hsup Ht. split.
  - intros s Hs Hlt msg. split; [|split].
    + unfold check_arguments.
      rewrite (check_variables_supported _ _ Hsup), Ht. simpl.
      unfold check_start. rewrite Hs. simpl.
      destruct (Z.ltb_spec t s); [reflexivity | lia].
    + unfold msg, msg_before. simpl str_time.
      apply substring_of_app_l, substring_of_prefix.
    + unfold msg, msg_before. simpl str_time.
      do 3 apply substring_of_app_l. apply substring_of_prefix.
  - intros e He Hlt Hstart msg. split; [|split].
    + unfold check_arguments.
      rewrite (check_variables_supported _ _ Hsup), Ht. simpl.
      assert (Hpass : check_start datetime_str self (Some t) = Ok tt).
      { unfold check_start. destruct (startTime self) as [s|] eqn:Hs;
          [|reflexivity].
        simpl. specialize (Hstart s eq_refl).
        destruct (Z.ltb_spec t s); [lia | reflexivity]. }
      rewrite Hpass. simpl. unfold check_end. rewrite He. simpl.
      destruct (Z.ltb_spec e t); [reflexivity | lia].
    + unfold msg, msg_after. simpl str_time.
      apply substring_of_app_l, substring_of_prefix.
    + unfold msg, msg_after. simpl str_time.
      do 3 apply substring_of_app_l. apply substring_of_prefix.
Qed.

(** X4.  A reader without [startTime] and [endTime] rejects no time: with
    the variables in the catalog and a point that is not flagged, any
    request, [time = None] included, is answered, and the time comes back
    as given. *)
Theorem check_arguments_no_time_axis (self : Reader) (vars : variables_arg)
    (time : option Z) (xs ys : list Q) (depth : arraylike) :
  startTime self = None -> endTime self = None ->
  supported self (to_list vars) ->
  List.length xs = List.length ys ->
  (exists i px py, point_at xs ys i px py /\ ~ outside_tested self px py) ->
  exists outside,
    check_arguments datetime_str self vars time (Seq xs) (Seq ys) depth =
      Ok (to_list vars, time, Nd1 xs, Nd1 ys, asarray depth, outside).
Proof.
  intros Hs He Hsup Hlen (i & px & py & Hpt & Hin).
  assert (Ht : default_time self time = time).
  { unfold default_time. destruct time; [reflexivity | now rewrite Hs]. }
  unfold check_arguments.
  rewrite (check_variables_supported _ _ Hsup), Ht.
  unfold check_start, check_end. rewrite Hs, He. simpl.
  rewrite (outside_mask_arrays self xs ys Hlen). simpl.
  destruct (Nat.eqb_spec
              (List.length (where_from 0 (zip_with (tested self) xs ys)))
              (List.length xs)) as [Heq | Hne].
  - exfalso. apply Hin.
    assert (Hfull : List.length (where_from 0 (zip_with (tested self) xs ys)) =
                    List.length (zip_with (tested self) xs ys))
      by now rewrite zip_with_length, Hlen, Nat.min_id, <- Hlen.
    apply (proj1 (where_from_full _ _)) in Hfull.
    exact (proj1 (Forall_zip_with_tested self xs ys) Hfull i px py Hpt).
  - eexists. reflexivity.
Qed.

End MoreCheckArguments.

Section SpatialCheck.

Variable datetime_str : Z -> string.

(** X5.  For two arrays of one length a successful call returns in
    [outside] the indices of the points it tests as outside ([x] against
    [xmin] and [xmax], [y] against [xmin] and [ymax]), in increasing order
    and without repetition, and always fewer of them than points. *)
Theorem check_arguments_outside_sorted (self : Reader) (vars : variables_arg)
    (time : option Z) (xs ys : list Q) (depth : arraylike)
    (vs : list string) (t : option Z) (x' y' depth' : ndarray Q)
    (outside : list nat) :
  List.length xs = List.length ys ->
  check_arguments datetime_str self vars time (Seq xs) (Seq ys) depth =
    Ok (vs, t, x', y', depth', outside) ->
  StronglySorted lt outside /\
  (forall i, In i outside <->
             exists px py, point_at xs ys i px py /\
                           outside_tested self px py) /\
  (List.length outside < List.length xs)%nat.
Proof.
  intros Hlen H.
  pose proof (check_arguments_outside_tested datetime_str self vars time xs ys
                depth vs t x' y' depth' outside Hlen H) as Hmem.
  apply check_arguments_ok_inv in H.
  destruct H as (_ & _ & -> & -> & _ & _ & _ & _ & mask & n & Hm & -> & Hn & Hne).
  simpl in Hm, Hn. rewrite (outside_mask_arrays self xs ys Hlen) in Hm.
  injection Hm as <-. injection Hn as <-. simpl in *.
  split; [apply where_from_sorted|]. split; [exact Hmem|].
  pose proof (where_from_length (zip_with (tested self) xs ys) 0) as Hle.
  rewrite zip_with_length, <- Hlen, Nat.min_id in Hle. lia.
Qed.

(** X6.  Once the variable and time checks have passed, a request of two
    arrays of one length is rejected, with a message that names the reader,
    when every point is tested as outside, and is answered with the
    normalized arguments when some point is not. *)
Theorem check_arguments_spatial_decision (self : Reader)
    (vars : variables_arg) (time : option Z) (xs ys : list Q)
    (depth : arraylike) :
  supported self (to_list vars) ->
  time_covered self (default_time self time) ->
  List.length xs = List.length ys ->
  ((forall i px py, point_at xs ys i px py -> outside_tested self px py) ->
   check_arguments datetime_str self vars time (Seq xs) (Seq ys) depth =
     Raise (ValueError (msg_outside (name self))) /\
   substring_of (name self) (msg_outside (name self))) /\
  ((exists i px py, point_at xs ys i px py /\ ~ outside_tested self px py) ->
   exists outside,
     check_arguments datetime_str self vars time (Seq xs) (Seq ys) depth =
       Ok (to_list vars, default_time self time, Nd1 xs, Nd1 ys,
           asarray depth, outside)).
Proof.
  intros Hsup Hcov Hlen.
  destruct (check_arguments_all_outside_tested datetime_str self vars time
              xs ys depth Hsup Hcov Hlen) as [Hall Hsome].
  split.
  - intros H. split; [now apply Hall|].
    unfold msg_outside. apply substring_of_app_l.
    exists "", "". simpl. clear.
    induction (name self) as [|c s IH]; simpl; [reflexivity | now rewrite <- IH].
  - intros (i & px & py & Hpt & Hin).
    destruct Hsome as (out & Hout).
    { intros H. exact (Hin (H i px py Hpt)). }
    destruct out as [[[[[vs t] x'] y'] depth'] outside].
    pose proof (check_arguments_ok_inv datetime_str _ _ _ _ _ _ _ _ _ _ _ _ Hout)
      as (-> & -> & -> & -> & -> & _).
    exists outside. exact Hout.
Qed.

(** X7.  A scalar [y] is accepted beside an array [x] and is compared with
    every entry of [x]: the request is rejected when every [x] is flagged
    with that [y], and otherwise answered, [y] coming back 0-dimensional and
    [outside] holding the flagged indices. *)
Theorem check_arguments_scalar_y (self : Reader) (vars : variables_arg)
    (time : option Z) (xs : list Q) (q : Q) (depth : arraylike) :
  supported self (to_list vars) ->
  time_covered self (default_time self time) ->
  ((forall px, In px xs -> outside_tested self px q) ->
   check_arguments datetime_str self vars time (Seq xs) (Scalar q) depth =
     Raise (ValueError (msg_outside (name self)))) /\
  ((exists px, In px xs /\ ~ outside_tested self px q) ->
   exists outside,
     check_arguments datetime_str self vars time (Seq xs) (Scalar q) depth =
       Ok (to_list vars, default_time self time, Nd1 xs, Nd0 q,
           asarray depth, outside) /\
     forall i, In i outside <->
               exists px, nth_error xs i = Some px /\
                          outside_tested self px q).
Proof.
  intros Hsup Hcov. unfold check_arguments.
  rewrite (check_variables_supported _ _ Hsup),
          (check_start_covered _ _ _ Hcov), (check_end_covered _ _ _ Hcov).
  simpl. rewrite outside_mask_scalar_y. simpl.
  set (mask := map (fun px => tested self px q) xs).
  assert (Hfull : List.length (where_from 0 mask) = List.length xs <->
                  forall px, In px xs -> outside_tested self px q).
  { replace (List.length xs) with (List.length mask)
      by (unfold mask; apply length_map).
    rewrite where_from_full. unfold mask. rewrite Forall_map, Forall_forall.
    split; intros H px Hpx; apply tested_iff; auto. }
  destruct (Nat.eqb_spec (List.length (where_from 0 mask)) (List.length xs))
    as [Heq | Hne]; split.
  - reflexivity.
  - intros (px & Hpx & Hin). exfalso. apply Hin. now apply Hfull.
  - intros Hall. exfalso. apply Hne. now apply Hfull.
  - intros _. eexists. split; [reflexivity|].
    intros i. rewrite In_where_from. unfold mask. split.
    + intros (j & -> & Hj). simpl. rewrite nth_error_map in Hj.
      destruct (nth_error xs j) as [px|]; [|discriminate].
      injection Hj as Hj. exists px. split; [reflexivity | now apply tested_iff].
    + intros (px & Hpx & Ht). exists i. split; [reflexivity|].
      rewrite nth_error_map, Hpx. simpl. f_equal. now apply tested_iff.
Qed.

(** X8.  Two arrays of different lengths, neither of length one, cannot be
    combined: once the variable and time checks have passed the call fails
    with numpy's [ValueError], which is none of the three errors of the
    reader. *)
Theorem check_arguments_shape_mismatch (self : Reader) (vars : variables_arg)
    (time : option Z) (xs ys : list Q) (depth : arraylike) :
  supported self (to_list vars) ->
  time_covered self (default_time self time) ->
  List.length xs <> List.length ys ->
  List.length xs <> 1%nat ->
  List.length ys <> 1%nat ->
  exists msg,
    check_arguments datetime_str self vars time (Seq xs) (Seq ys) depth =
      Raise (ValueError msg) /\
    is_unsupported_variable (ValueError msg) = false /\
    is_time_out_of_range (ValueError msg) = false /\
    is_all_points_outside (ValueError msg) = false.
Proof.
  intros Hsup Hcov Hne Hx Hy.
  exists "operands could not be broadcast together".
  split; [|repeat split].
  unfold check_arguments.
  rewrite (check_variables_supported _ _ Hsup),
          (check_start_covered _ _ _ Hcov), (check_end_covered _ _ _ Hcov).
  simpl. unfold outside_mask, nd_or.
  assert (H12 : nd_map2 orb (nd_map (fun v => Qltb v (xmin self)) (Nd1 xs))
                            (nd_map (fun v => Qltb (xmax self) v) (Nd1 xs)) =
                Ok (Nd1 (zip_with orb (map (fun v => Qltb v (xmin self)) xs)
                                      (map (fun v => Qltb (xmax self) v) xs)))).
  { simpl. now rewrite !length_map, Nat.eqb_refl. }
  rewrite H12. cbn [bind nd_map].
  rewrite nd_map2_mismatch; [reflexivity | | |];
    rewrite ?zip_with_length, ?length_map, ?Nat.min_id; assumption.
Qed.

(** X9.  An [x] of length one set against a longer (or empty) [y] is
    stretched over it, while the all-outside test still counts against
    [len(x) = 1]: the request is rejected exactly when a single one of the
    combined points is flagged, and is answered otherwise, also when all of
    them are flagged. *)
Theorem check_arguments_single_x (self : Reader) (vars : variables_arg)
    (time : option Z) (px : Q) (ys : list Q) (depth : arraylike) :
  supported self (to_list vars) ->
  time_covered self (default_time self time) ->
  List.length ys <> 1%nat ->
  (List.length (filter (tested self px) ys) = 1%nat ->
   check_arguments datetime_str self vars time (Seq [px]) (Seq ys) depth =
     Raise (ValueError (msg_outside (name self)))) /\
  (List.length (filter (tested self px) ys) <> 1%nat ->
   exists outside,
     check_arguments datetime_str self vars time (Seq [px]) (Seq ys) depth =
       Ok (to_list vars, default_time self time, Nd1 [px], Nd1 ys,
           asarray depth, outside) /\
     List.length outside = List.length (filter (tested self px) ys)).
Proof.
  intros Hsup Hcov Hlen. unfold check_arguments.
  rewrite (check_variables_supported _ _ Hsup),
          (check_start_covered _ _ _ Hcov), (check_end_covered _ _ _ Hcov).
  cbn [bind asarray]. rewrite (outside_mask_single_x self px ys Hlen).
  cbn [bind np_where py_len]. rewrite where_from_count.
  change (fun py : Q => tested self px py) with (tested self px).
  change (List.length [px]) with 1%nat.
  destruct (Nat.eqb_spec (List.length (filter (tested self px) ys)) 1)
    as [Heq | Hne]; split.
  - reflexivity.
  - intros H. contradiction.
  - intros H. contradiction.
  - intros _. eexists. split; [reflexivity|]. apply where_from_count.
Qed.

(** X10.  Checking again what [check_arguments] has returned changes
    nothing: the returned variables, time and arrays pass the check and come
    back the same, with the same [outside]. *)
Theorem check_arguments_idempotent (self : Reader) (vars : variables_arg)
    (time : option Z) (x y depth : arraylike) (vs : list string)
    (t : option Z) (x' y' depth' : ndarray Q) (outside : list nat) :
  check_arguments datetime_str self vars time x y depth =
    Ok (vs, t, x', y', depth', outside) ->
  check_arguments datetime_str self (VList vs) t
    (of_ndarray x') (of_ndarray y') (of_ndarray depth') =
    Ok (vs, t, x', y', depth', outside).
Proof.
  intros H.
  pose proof (check_arguments_ok_inv _ _ _ _ _ _ _ _ _ _ _ _ _ H)
    as (-> & -> & -> & -> & -> & _).
  rewrite <- H. unfold check_arguments.
  now rewrite !asarray_of_ndarray, default_time_idem.
Qed.

End SpatialCheck.

(** *** Witnesses on the sample readers *)

Lemma wind_supported : supported wind_reader (to_list (VStr "x_wind")).
Proof. constructor; [simpl; auto | constructor]. Defined.

Lemma wind_covered : time_covered wind_reader (default_time wind_reader None).
Proof.
  exists 0%Z. split; [reflexivity|]. split.
  - intros s [= <-]. lia.
  - intros e [= <-]. unfold hour. lia.
Defined.

Lemma check_arguments_postcondition_witness :
  supported wind_reader ["x_wind"] /\
  (forall s, startTime wind_reader = Some s ->
             exists t0, Some 0%Z = Some t0 /\ (s <= t0)%Z) /\
  (forall e, endTime wind_reader = Some e ->
             exists t0, Some 0%Z = Some t0 /\ (t0 <= e)%Z) /\
  exists xs, Nd1 [5; 11] = Nd1 xs /\ List.length [1%nat] <> List.length xs.
Proof.
  exact (check_arguments_postcondition micros_str wind_reader (VStr "x_wind")
           None (Seq [5; 11]) (Seq [7; 7]) (Seq [0; 0])
           ["x_wind"] (Some 0%Z) (Nd1 [5; 11]) (Nd1 [7; 7]) (Nd1 [0; 0])
           [1%nat] eq_refl).
Defined.

Lemma check_arguments_time_messages_witness :
  check_arguments micros_str wind_reader (VStr "x_wind") (Some (-1)%Z)
    (Scalar 5) (Seq []) (Seq []) =
    Raise (ValueError (msg_before micros_str (Some (-1)%Z) (Some 0%Z))) /\
  check_arguments micros_str wind_reader (VStr "x_wind") (Some (3 * hour)%Z)
    (Scalar 5) (Seq []) (Seq []) =
    Raise (ValueError (msg_after micros_str (Some (3 * hour)%Z)
                                 (Some (2 * hour)%Z))).
Proof.
  split.
  - refine (proj1 (proj1 (check_arguments_time_messages micros_str wind_reader
              (VStr "x_wind") (Some (-1)%Z) (Scalar 5) (Seq []) (Seq [])
              (-1)%Z wind_supported eq_refl) 0%Z eq_refl _)).
    lia.
  - refine (proj1 (proj2 (check_arguments_time_messages micros_str wind_reader
              (VStr "x_wind") (Some (3 * hour)%Z) (Scalar 5) (Seq []) (Seq [])
              (3 * hour)%Z wind_supported eq_refl) (2 * hour)%Z eq_refl _ _)).
    + unfold hour. lia.
    + intros s [= <-]. unfold hour. lia.
Defined.

Lemma check_arguments_no_time_axis_witness :
  exists outside,
    check_arguments micros_str shallow_reader (VStr "sea_water_temperature")
      None (Seq [5]) (Seq [5]) (Scalar 0) =
    Ok (["sea_water_temperature"], None, Nd1 [5], Nd1 [5], Nd0 0, outside).
Proof.
  apply (check_arguments_no_time_axis micros_str shallow_reader
           (VStr "sea_water_temperature") None [5] [5] (Scalar 0)).
  - reflexivity.
  - reflexivity.
  - constructor; [simpl; auto | constructor].
  - reflexivity.
  - exists 0%nat, 5, 5. split; [split; reflexivity|].
    intros [H | [H | [H | H]]]; vm_compute in H; discriminate.
Defined.

Lemma check_arguments_outside_sorted_witness :
  StronglySorted lt [1%nat; 2%nat] /\
  (forall i, In i [1%nat; 2%nat] <->
             exists px py, point_at [5; 11; 5] [7; 7; 11] i px py /\
                           outside_tested wind_reader px py) /\
  (List.length [1%nat; 2%nat] < List.length [5; 11; 5])%nat.
Proof.
  exact (check_arguments_outside_sorted micros_str wind_reader (VStr "x_wind")
           None [5; 11; 5] [7; 7; 11] (Seq [0; 0; 0])
           ["x_wind"] (Some 0%Z) (Nd1 [5; 11; 5]) (Nd1 [7; 7; 11])
           (Nd1 [0; 0; 0]) [1%nat; 2%nat] eq_refl eq_refl).
Defined.

Lemma check_arguments_spatial_decision_witness :
  check_arguments micros_str wind_reader (VStr "x_wind") None
    (Seq [11]) (Seq [7]) (Seq [0]) =
    Raise (ValueError (msg_outside (name wind_reader))) /\
  exists outside,
    check_arguments micros_str wind_reader (VStr "x_wind") None
      (Seq [11; 5]) (Seq [7; 7]) (Seq [0; 0]) =
    Ok (["x_wind"], Some 0%Z, Nd1 [11; 5], Nd1 [7; 7], Nd1 [0; 0], outside).
Proof.
  split.
  - refine (proj1 (proj1 (check_arguments_spatial_decision micros_str
              wind_reader (VStr "x_wind") None [11] [7] (Seq [0])
              wind_supported wind_covered eq_refl) _)).
    intros [|i] px py [Hx Hy].
    + injection Hx as <-. right; left. reflexivity.
    + destruct i; discriminate.
  - refine (proj2 (check_arguments_spatial_decision micros_str
              wind_reader (VStr "x_wind") None [11; 5] [7; 7] (Seq [0; 0])
              wind_supported wind_covered eq_refl) _).
    exists 1%nat, 5, 7. split; [split; reflexivity|].
    intros [H | [H | [H | H]]]; vm_compute in H; discriminate.
Defined.

Lemma check_arguments_scalar_y_witness :
  check_arguments micros_str wind_reader (VStr "x_wind") None
    (Seq [11; 12]) (Scalar 7) (Seq [0]) =
    Raise (ValueError (msg_outside (name wind_reader))) /\
  exists outside,
    check_arguments micros_str wind_reader (VStr "x_wind") None
      (Seq [11; 5]) (Scalar 7) (Seq [0]) =
    Ok (["x_wind"], Some 0%Z, Nd1 [11; 5], Nd0 7, Nd1 [0], outside).
Proof.
  split.
  - refine (proj1 (check_arguments_scalar_y micros_str wind_reader
              (VStr "x_wind") None [11; 12] 7 (Seq [0])
              wind_supported wind_covered) _).
    intros px [<- | [<- | []]]; right; left; reflexivity.
  - destruct (proj2 (check_arguments_scalar_y micros_str wind_reader
              (VStr "x_wind") None [11; 5] 7 (Seq [0])
              wind_supported wind_covered)) as (outside & Hres & _).
    + exists 5. split; [simpl; auto|].
      intros [H | [H | [H | H]]]; vm_compute in H; discriminate.
    + exists outside. exact Hres.
Defined.

Lemma check_arguments_shape_mismatch_witness :
  exists msg,
    check_arguments micros_str wind_reader (VStr "x_wind") None
      (Seq [5; 6]) (Seq [7; 7; 7]) (Seq [0]) = Raise (ValueError msg) /\
    is_unsupported_variable (ValueError msg) = false /\
    is_time_out_of_range (ValueError msg) = false /\
    is_all_points_outside (ValueError msg) = false.
Proof.
  apply (check_arguments_shape_mismatch micros_str wind_reader
           (VStr "x_wind") None [5; 6] [7; 7; 7] (Seq [0])
           wind_supported wind_covered); simpl; lia.
Defined.

Lemma check_arguments_single_x_witness :
  check_arguments micros_str wind_reader (VStr "x_wind") None
    (Seq [5]) (Seq [7; 11]) (Seq [0]) =
    Raise (ValueError (msg_outside (name wind_reader))) /\
  exists outside,
    check_arguments micros_str wind_reader (VStr "x_wind") None
      (Seq [5]) (Seq [11; 12]) (Seq [0]) =
    Ok (["x_wind"], Some 0%Z, Nd1 [5], Nd1 [11; 12], Nd1 [0], outside) /\
    List.length outside = 2%nat.
Proof.
  split.
  - apply (proj1 (check_arguments_single_x micros_str wind_reader
             (VStr "x_wind") None 5 [7; 11] (Seq [0])
             wind_supported wind_covered ltac:(simpl; lia))).
    reflexivity.
  - apply (proj2 (check_arguments_single_x micros_str wind_reader
             (VStr "x_wind") None 5 [11; 12] (Seq [0])
             wind_supported wind_covered ltac:(simpl; lia))).
    simpl. lia.
Defined.

Lemma check_arguments_idempotent_witness :
  check_arguments micros_str wind_reader (VList ["x_wind"]) (Some 0%Z)
    (of_ndarray (Nd1 [5; 11])) (of_ndarray (Nd0 7)) (of_ndarray (Nd0 0)) =
  Ok (["x_wind"], Some 0%Z, Nd1 [5; 11], Nd0 7, Nd0 0, [1%nat]).
Proof.
  exact (check_arguments_idempotent micros_str wind_reader (VStr "x_wind")
           None (Seq [5; 11]) (Scalar 7) (Scalar 0)
           ["x_wind"] (Some 0%Z) (Nd1 [5; 11]) (Nd0 7) (Nd0 0) [1%nat]
           eq_refl).
Defined.

(** ** Further properties of index_of_closest_time *)

Local Open Scope Z_scope.


Lemma round_pos_monotone (m : rounding) (n1 n2 den : Z) :
  0 < den -> n1 <= n2 -> round_pos m n1 den <= round_pos m n2 den.
Proof.
  intros Hden Hle.
  destruct (Z.eq_dec n1 n2) as [-> | Hne]; [lia|].
  pose proof (round_pos_bounds m n1 den Hden) as H1.
  pose proof (round_pos_bounds m n2 den Hden) as H2.
  set (r1 := round_pos m n1 den) in *. set (r2 := round_pos m n2 den) in *.
  destruct (Z.le_gt_cases r1 r2) as [|Hlt]; [assumption|]. exfalso.
  assert (H : den * (r2 + 1) <= den * r1)
    by (apply Z.mul_le_mono_nonneg_l; lia).
  lia.
Qed.

Lemma index_of_closest_time_ok_inv (m : rounding) (self : Reader)
    (start step req k t : Z) :
  startTime self = Some start -> timeStep self = Some step -> 0 < step ->
  index_of_closest_time m self req = Ok (k, t) ->
  k = round_pos m (req - start) step /\ py_getitem (times self) k = Ok t.
Proof.
  intros Hs Ht Hpos.
  rewrite (index_of_closest_time_eq m self start step req Hs Ht Hpos).
  destruct (py_getitem _ _) as [a|] eqn:Hget; simpl; [|discriminate].
  intros [= <- <-]. auto.
Qed.


(** X12.  For a positive [timeStep] the index grows with the requested
    time: of two lookups that return, the one for the later time never
    returns the smaller index. *)
Theorem index_of_closest_time_monotone (m : rounding) (self : Reader)
    (start step req1 req2 k1 t1 k2 t2 : Z) :
  startTime self = Some start -> timeStep self = Some step -> 0 < step ->
  req1 <= req2 ->
  index_of_closest_time m self req1 = Ok (k1, t1) ->
  index_of_closest_time m self req2 = Ok (k2, t2) ->
  k1 <= k2.
Proof.
  intros Hs Ht Hpos Hle H1 H2.
  apply (index_of_closest_time_ok_inv m self start step) in H1; auto.
  apply (index_of_closest_time_ok_inv m self start step) in H2; auto.
  destruct H1 as [-> _], H2 as [-> _].
  apply round_pos_monotone; lia.
Qed.


(** X14.  For any [timeStep] other than zero, negative ones included, the
    requested time [startTime + k * timeStep] is looked up at index [k]
    itself: the call returns [(k, times[k])] or fails as [times[k]] does.
    With a [timeStep] of zero every call raises [ZeroDivisionError]. *)
Theorem index_of_closest_time_on_grid (m : rounding) (self : Reader)
    (start step : Z) :
  startTime self = Some start -> timeStep self = Some step ->
  (step <> 0 ->
   forall k, index_of_closest_time m self (start + k * step) =
             (t <- py_getitem (times self) k ;; Ok (k, t))) /\
  (step = 0 ->
   forall req, index_of_closest_time m self req = Raise ZeroDivisionError).
Proof.
  intros Hs Ht. split.
  - intros Hne k. unfold index_of_closest_time. rewrite Hs, Ht.
    destruct (Z.eqb_spec step 0); [contradiction|].
    assert (Hround : py_round m (start + k * step - start) step = k).
    { unfold py_round. destruct (Z.ltb_spec step 0).
      - apply round_pos_nearest; lia.
      - apply round_pos_nearest; lia. }
    now rewrite Hround.
  - intros -> req. unfold index_of_closest_time. now rewrite Hs, Ht.
Qed.

Local Close Scope Z_scope.

Section CheckThenIndex.

Variable datetime_str : Z -> string.


End CheckThenIndex.


Lemma index_of_closest_time_monotone_witness : (0 <= 2)%Z.
Proof.
  refine (index_of_closest_time_monotone HalfAwayFromZero wind_reader 0 hour
            5 (2 * hour - 5) 0 0 2 (2 * hour) eq_refl eq_refl eq_refl _
            eq_refl eq_refl).
  unfold hour. lia.
Defined.


Lemma index_of_closest_time_on_grid_witness :
  index_of_closest_time HalfToEven backward_reader (2 * hour + 2 * - hour) =
  (t <- py_getitem (times backward_reader) 2 ;; Ok (2%Z, t)).
Proof.
  refine (proj1 (index_of_closest_time_on_grid HalfToEven backward_reader
            (2 * hour) (- hour) eq_refl eq_refl) _ 2%Z).
  discriminate.
Defined.


(** ** Further properties of indices_min_max_depth *)

Lemma Qmin'_le_r (a b : Q) : (Qmin' a b <= b)%Q.
Proof.
  unfold Qmin'. destruct (Qle_bool a b) eqn:E; [|apply Qle_refl].
  now apply Qle_bool_iff.
Qed.

Lemma Qmax'_ge_r (a b : Q) : (b <= Qmax' a b)%Q.
Proof.
  unfold Qmax'. destruct (Qle_bool a b) eqn:E; [apply Qle_refl|].
  apply Qlt_le_weak, Qnot_le_lt. intros H.
  apply Qle_bool_iff in H. congruence.
Qed.

Lemma fold_min_in (l : list Q) (q : Q) : In (fold_left Qmin' l q) (q :: l).
Proof.
  revert q. induction l as [|a l IH]; intros q; simpl; [now left|].
  destruct (IH (Qmin' q a)) as [H | H]; [|now right; right].
  rewrite <- H. unfold Qmin'. destruct (Qle_bool q a); auto.
Qed.

Lemma fold_max_in (l : list Q) (q : Q) : In (fold_left Qmax' l q) (q :: l).
Proof.
  revert q. induction l as [|a l IH]; intros q; simpl; [now left|].
  destruct (IH (Qmax' q a)) as [H | H]; [|now right; right].
  rewrite <- H. unfold Qmax'. destruct (Qle_bool q a); auto.
Qed.

Lemma fold_min_le_all (l : list Q) (q r : Q) :
  In r (q :: l) -> (fold_left Qmin' l q <= r)%Q.
Proof.
  revert q. induction l as [|a l IH]; intros q Hin; simpl.
  - destruct Hin as [<- | []]. apply Qle_refl.
  - destruct Hin as [<- | [<- | Hin]].
    + apply Qle_trans with (Qmin' q a);
        [apply fold_min_le | apply Qmin'_le].
    + apply Qle_trans with (Qmin' q a);
        [apply fold_min_le | apply Qmin'_le_r].
    + apply IH. now right.
Qed.

Lemma fold_max_ge_all (l : list Q) (q r : Q) :
  In r (q :: l) -> (r <= fold_left Qmax' l q)%Q.
Proof.
  revert q. induction l as [|a l IH]; intros q Hin; simpl.
  - destruct Hin as [<- | []]. apply Qle_refl.
  - destruct Hin as [<- | [<- | Hin]].
    + apply Qle_trans with (Qmax' q a);
        [apply Qmax'_ge | apply fold_max_ge].
    + apply Qle_trans with (Qmax' q a);
        [apply Qmax'_ge_r | apply fold_max_ge].
    + apply IH. now right.
Qed.

(** The least and the greatest entry of a non-empty 1-d request. *)
Lemma nd_min_max_list (requested : list Q) :
  requested <> [] ->
  exists lo hi,
    nd_min (Nd1 requested) = Ok lo /\ nd_max (Nd1 requested) = Ok hi /\
    In lo requested /\ In hi requested /\
    forall r, In r requested -> (lo <= r <= hi)%Q.
Proof.
  destruct requested as [|q l]; [congruence|]. intros _.
  exists (fold_left Qmin' l q), (fold_left Qmax' l q). simpl.
  split; [reflexivity|]. split; [reflexivity|].
  split; [apply fold_min_in|]. split; [apply fold_max_in|].
  intros r Hr. split; [now apply fold_min_le_all | now apply fold_max_ge_all].
Qed.

(** X16.  Where the depth levels increase, the first level is no deeper
    than any requested depth, some level is strictly deeper than a requested
    depth and some level is at least as deep as every requested depth, the
    two indices returned cover the request: every requested depth lies
    between [depths[minIndex]] and [depths[maxIndex]], [minIndex] is not
    above [maxIndex], and the range is the narrowest such, any level past
    [minIndex] or before [maxIndex] leaving a requested depth out. *)
Theorem indices_min_max_depth_covers (self : Reader) (requested : list Q)
    (d0 : Q) :
  increasing (depths self) ->
  requested <> [] ->
  nth_error (depths self) 0 = Some d0 ->
  (forall r, In r requested -> (d0 <= r)%Q) ->
  (exists i d r, nth_error (depths self) i = Some d /\ In r requested /\
                 (r < d)%Q) ->
  (exists i d, nth_error (depths self) i = Some d /\
               forall r, In r requested -> (r <= d)%Q) ->
  exists minIndex maxIndex dmin dmax,
    indices_min_max_depth self (Nd1 requested) =
      Ok (Z.of_nat minIndex, Z.of_nat maxIndex) /\
    nth_error (depths self) minIndex = Some dmin /\
    nth_error (depths self) maxIndex = Some dmax /\
    (minIndex <= maxIndex)%nat /\
    (forall r, In r requested -> (dmin <= r <= dmax)%Q) /\
    (forall j d, (minIndex < j)%nat -> nth_error (depths self) j = Some d ->
                 exists r, In r requested /\ (r < d)%Q) /\
    (forall j d, (j < maxIndex)%nat -> nth_error (depths self) j = Some d ->
                 exists r, In r requested /\ (d < r)%Q).
Proof.
  intros Hinc Hne Hd0 Hfirst (i1 & d1 & r1 & Hi1 & Hr1 & Hlt1)
         (i2 & d2 & Hi2 & Hall2).
  destruct (nd_min_max_list requested Hne)
    as (lo & hi & Hlo & Hhi & Hloin & Hhiin & Hbetween).
  destruct (indices_min_max_depth_covered self (Nd1 requested) lo hi d0
              Hinc Hlo Hhi Hd0 (Hfirst lo Hloin))
    as (mi & ma & Hres & (dmin & Hmi & Hdmin) & Hpast & (dmax & Hma & Hdmax)
        & Hbefore).
  { exists i1, d1. split; [assumption|].
    eapply Qle_lt_trans; [exact (proj1 (Hbetween r1 Hr1)) | exact Hlt1]. }
  { exists i2, d2. split; [assumption | now apply Hall2]. }
  exists mi, ma, dmin, dmax.
  split; [exact Hres|]. split; [exact Hmi|]. split; [exact Hma|].
  split; [|split; [|split]].
  - destruct (Nat.le_gt_cases mi ma) as [|Hgt]; [assumption|]. exfalso.
    pose proof (increasing_nth (depths self) ma mi dmax dmin Hinc Hgt Hma Hmi)
      as Hlt.
    apply (Qlt_not_le _ _ Hlt).
    eapply Qle_trans; [exact Hdmin|].
    eapply Qle_trans; [exact (proj2 (Hbetween lo Hloin)) | exact Hdmax].
  - intros r Hr. destruct (Hbetween r Hr) as [Hlor Hrhi]. split.
    + eapply Qle_trans; [exact Hdmin | exact Hlor].
    + eapply Qle_trans; [exact Hrhi | exact Hdmax].
  - intros j d Hj Hjd. exists lo. split; [assumption | exact (Hpast j d Hj Hjd)].
  - intros j d Hj Hjd. exists hi. split; [assumption | exact (Hbefore j d Hj Hjd)].
Qed.

(** X17.  Outside the coverage nothing is clamped: [minIndex] is [-1]
    exactly when the first level is already deeper than the least requested
    depth or no level is deeper than it, and [maxIndex] is [0] when no level
    reaches the greatest requested depth, as it is when the first level
    does. *)
Theorem indices_min_max_depth_uncovered (self : Reader)
    (requested : ndarray Q) (lo hi d0 : Q) (minIndex maxIndex : Z) :
  nth_error (depths self) 0 = Some d0 ->
  nd_min requested = Ok lo -> nd_max requested = Ok hi ->
  indices_min_max_depth self requested = Ok (minIndex, maxIndex) ->
  (minIndex = (-1)%Z <->
   (lo < d0)%Q \/ forall d, In d (depths self) -> (d <= lo)%Q) /\
  ((forall d, In d (depths self) -> (d < hi)%Q) -> maxIndex = 0%Z) /\
  ((hi <= d0)%Q -> maxIndex = 0%Z).
Proof.
  intros Hd0 Hlo Hhi Hres.
  assert (Hne : depths self <> [])
    by (intros H; rewrite H in Hd0; discriminate).
  assert (Hmap : forall f : Q -> bool, map f (depths self) <> []).
  { intros f H. apply map_eq_nil in H. contradiction. }
  destruct (argmin_spec _ (Hmap (fun d => Qle_bool d lo)))
    as (a & Ha & _ & Hacase).
  destruct (argmax_spec _ (Hmap (fun d => Qle_bool hi d)))
    as (b & Hb & _ & Hbcase).
  unfold indices_min_max_depth in Hres. rewrite Hlo, Hhi in Hres.
  cbn [bind] in Hres. rewrite Ha in Hres. cbn [bind] in Hres.
  rewrite Hb in Hres. cbn [bind] in Hres. injection Hres as <- <-.
  assert (Hmask0 : forall f : Q -> bool,
             nth_error (map f (depths self)) 0 = Some (f d0))
    by (intros f; now rewrite nth_error_map, Hd0).
  split; [|split].
  - split.
    + intros Hm. assert (a = 0%nat) by lia. subst a.
      destruct Hacase as [[_ Hall] | [Hfalse _]].
      * right. intros d Hd. apply Qle_bool_iff.
        rewrite Forall_forall in Hall. apply Hall.
        now apply (in_map (fun d => Qle_bool d lo)).
      * left. rewrite Hmask0 in Hfalse. injection Hfalse as Hfalse.
        apply Qnot_le_lt. intros H. apply Qle_bool_iff in H. congruence.
    + intros Hcase.
      destruct Hacase as [[-> _] | [Hfalse Hbefore]]; [reflexivity|].
      destruct a as [|a']; [reflexivity|]. exfalso.
      specialize (Hbefore 0%nat ltac:(lia)). rewrite Hmask0 in Hbefore.
      injection Hbefore as Htrue. apply Qle_bool_iff in Htrue.
      destruct Hcase as [Hlt | Hall].
      * exact (Qlt_not_le _ _ Hlt Htrue).
      * rewrite nth_error_map in Hfalse.
        destruct (nth_error (depths self) (S a')) as [da|] eqn:Hda;
          [|discriminate].
        injection Hfalse as Hfalse.
        assert (Hle : (da <= lo)%Q)
          by (apply Hall; eapply nth_error_In; eauto).
        apply Qle_bool_iff in Hle. congruence.
  - intros Hall.
    destruct Hbcase as [[-> _] | [Htrue _]]; [reflexivity|]. exfalso.
    rewrite nth_error_map in Htrue.
    destruct (nth_error (depths self) b) as [db|] eqn:Hdb; [|discriminate].
    injection Htrue as Htrue. apply Qle_bool_iff in Htrue.
    apply (Qlt_not_le db hi); [|assumption].
    apply Hall. eapply nth_error_In; eauto.
  - intros Hle.
    destruct Hbcase as [[-> _] | [_ Hbefore]]; [reflexivity|].
    destruct b as [|b']; [reflexivity|]. exfalso.
    specialize (Hbefore 0%nat ltac:(lia)). rewrite Hmask0 in Hbefore.
    injection Hbefore as Hfalse. apply Qle_bool_iff in Hle. congruence.
Qed.

(** X18.  A single requested depth inside the coverage is bracketed by
    neighbouring levels: [depths[minIndex]] is the last level no deeper than
    it (every later level is deeper), [depths[maxIndex]] is at least as deep
    as it, and [maxIndex] is [minIndex] when the depth is one of the levels
    and [minIndex + 1] when it lies strictly between two. *)
Theorem indices_min_max_depth_bracket (self : Reader) (r d0 : Q) :
  increasing (depths self) ->
  nth_error (depths self) 0 = Some d0 -> (d0 <= r)%Q ->
  (exists i d, nth_error (depths self) i = Some d /\ (r < d)%Q) ->
  exists minIndex maxIndex dmin dmax,
    indices_min_max_depth self (Nd0 r) =
      Ok (Z.of_nat minIndex, Z.of_nat maxIndex) /\
    nth_error (depths self) minIndex = Some dmin /\
    nth_error (depths self) maxIndex = Some dmax /\
    (dmin <= r)%Q /\ (r <= dmax)%Q /\
    (forall j d, (minIndex < j)%nat -> nth_error (depths self) j = Some d ->
                 (r < d)%Q) /\
    (forall j d, (j < maxIndex)%nat -> nth_error (depths self) j = Some d ->
                 (d < r)%Q) /\
    ((dmin == r)%Q -> maxIndex = minIndex) /\
    ((dmin < r)%Q -> maxIndex = S minIndex /\ (r < dmax)%Q).
Proof.
  intros Hinc Hd0 Hfirst (i1 & d1 & Hi1 & Hlt1).
  destruct (indices_min_max_depth_covered self (Nd0 r) r r d0
              Hinc eq_refl eq_refl Hd0 Hfirst)
    as (mi & ma & Hres & (dmin & Hmi & Hdmin) & Hpast & (dmax & Hma & Hdmax)
        & Hbefore).
  { exists i1, d1. auto. }
  { exists i1, d1. split; [assumption | now apply Qlt_le_weak]. }
  assert (Hle : (mi <= ma)%nat).
  { destruct (Nat.le_gt_cases mi ma) as [|Hgt]; [assumption|]. exfalso.
    pose proof (increasing_nth (depths self) ma mi dmax dmin Hinc Hgt Hma Hmi)
      as Hlt.
    apply (Qlt_not_le _ _ Hlt). eapply Qle_trans; eassumption. }
  exists mi, ma, dmin, dmax.
  split; [exact Hres|]. split; [exact Hmi|]. split; [exact Hma|].
  split; [exact Hdmin|]. split; [exact Hdmax|].
  split; [exact Hpast|]. split; [exact Hbefore|]. split.
  - intros Heq. destruct (Nat.eq_dec ma mi) as [|Hneq]; [assumption|].
    exfalso. pose proof (Hbefore mi dmin ltac:(lia) Hmi) as Hlt.
    rewrite Heq in Hlt. exact (Qlt_irrefl _ Hlt).
  - intros Hlt.
    assert (Hi1gt : (mi < i1)%nat).
    { destruct (Nat.lt_ge_cases mi i1) as [|Hge]; [assumption|]. exfalso.
      destruct (Nat.eq_dec i1 mi) as [-> | Hneq].
      - rewrite Hmi in Hi1. injection Hi1 as <-.
        exact (Qlt_not_le _ _ Hlt1 Hdmin).
      - pose proof (increasing_nth (depths self) i1 mi d1 dmin Hinc
                      ltac:(lia) Hi1 Hmi) as H.
        apply (Qlt_not_le _ _ Hlt1).
        eapply Qle_trans; [apply Qlt_le_weak; exact H | exact Hdmin]. }
    destruct (nth_error (depths self) (S mi)) as [dn|] eqn:Hn.
    2:{ apply nth_error_None in Hn.
        assert (i1 < List.length (depths self))%nat
          by (apply nth_error_Some; congruence).
        lia. }
    pose proof (Hpast (S mi) dn ltac:(lia) Hn) as Hdn.
    destruct (Nat.eq_dec ma mi) as [-> | Hneq].
    { exfalso. rewrite Hmi in Hma. injection Hma as <-.
      exact (Qlt_not_le _ _ Hlt Hdmax). }
    assert (Hma' : ma = S mi).
    { destruct (Nat.le_gt_cases ma (S mi)) as [|Hgt]; [lia|]. exfalso.
      pose proof (Hbefore (S mi) dn Hgt Hn) as H.
      exact (Qlt_irrefl _ (Qlt_trans _ _ _ H Hdn)). }
    split; [exact Hma'|]. subst ma. rewrite Hn in Hma.
    injection Hma as <-. exact Hdn.
Qed.

Lemma indices_min_max_depth_covers_witness :
  exists minIndex maxIndex dmin dmax,
    indices_min_max_depth wind_reader (Nd1 [25; 12; 20]) =
      Ok (Z.of_nat minIndex, Z.of_nat maxIndex) /\
    nth_error (depths wind_reader) minIndex = Some dmin /\
    nth_error (depths wind_reader) maxIndex = Some dmax /\
    (minIndex <= maxIndex)%nat /\
    (forall r, In r [25; 12; 20] -> (dmin <= r <= dmax)%Q).
Proof.
  destruct (indices_min_max_depth_covers wind_reader [25; 12; 20] 0)
    as (mi & ma & dmin & dmax & H1 & H2 & H3 & H4 & H5 & _).
  - simpl. repeat split; reflexivity.
  - discriminate.
  - reflexivity.
  - intros r [<- | [<- | [<- | []]]]; discriminate.
  - exists 4%nat, 50, 25. split; [reflexivity|]. split; [simpl; auto|].
    reflexivity.
  - exists 4%nat, 50. split; [reflexivity|].
    intros r [<- | [<- | [<- | []]]]; discriminate.
  - exists mi, ma, dmin, dmax. auto.
Defined.

Lemma indices_min_max_depth_uncovered_witness :
  ((-1)%Z = (-1)%Z <->
   (-5 < 0)%Q \/ forall d, In d (depths shallow_reader) -> (d <= -5)%Q) /\
  ((forall d, In d (depths shallow_reader) -> (d < 5)%Q) -> 1%Z = 0%Z) /\
  ((5 <= 0)%Q -> 1%Z = 0%Z).
Proof.
  exact (indices_min_max_depth_uncovered shallow_reader (Nd1 [-5; 5])
           (-5) 5 0 (-1)%Z 1%Z eq_refl eq_refl eq_refl eq_refl).
Defined.

Lemma indices_min_max_depth_bracket_witness :
  indices_min_max_depth wind_reader (Nd0 25) = Ok (2%Z, 3%Z) /\
  exists minIndex maxIndex dmin dmax,
    indices_min_max_depth wind_reader (Nd0 25) =
      Ok (Z.of_nat minIndex, Z.of_nat maxIndex) /\
    nth_error (depths wind_reader) minIndex = Some dmin /\
    nth_error (depths wind_reader) maxIndex = Some dmax /\
    (dmin <= 25)%Q /\ (25 <= dmax)%Q /\
    (forall j d, (minIndex < j)%nat ->
                 nth_error (depths wind_reader) j = Some d -> (25 < d)%Q) /\
    (forall j d, (j < maxIndex)%nat ->
                 nth_error (depths wind_reader) j = Some d -> (d < 25)%Q) /\
    ((dmin == 25)%Q -> maxIndex = minIndex) /\
    ((dmin < 25)%Q -> maxIndex = S minIndex /\ (25 < dmax)%Q).
Proof.
  split; [reflexivity|].
  apply (indices_min_max_depth_bracket wind_reader 25 0).
  - simpl. repeat split; reflexivity.
  - reflexivity.
  - discriminate.
  - exists 4%nat, 50. split; reflexivity.
Defined.
